(** * update_data: a shallow embedding of [scripts/update_data.py]

    The script downloads two TWSE reports (BFI84U, the margin-trading
    summary, and TWT93U, the securities-lending summary), resolves the most
    recent trading dates, and appends per-date balance pairs to the rows of
    the margin table.  This file embeds the pure core of the script and the
    control flow of its fetch loops, and states the properties of the
    parser, the fetcher, the calendar walk, the column heuristics and the
    merge loop. *)

From Stdlib Require Import ZArith NArith List String Ascii Bool Lia DecimalString DecimalZ.
From stdpp Require Import gmap list strings sorting.

Open Scope Z_scope.
Set Warnings "-register-all".

(** ** Python values *)

(** A Python [str] is a sequence of Unicode code points. *)
Abbreviation pystr := (list N).

(** Source literals are written as UTF-8 text and decoded to code points. *)
Fixpoint utf8_decode (bs : list N) : pystr :=
  match bs with
  | [] => []
  | b :: r =>
    if (b <? 0x80)%N then b :: utf8_decode r
    else if (b <? 0xE0)%N then
      match r with
      | b1 :: r1 => ((b - 0xC0) * 0x40 + (b1 - 0x80))%N :: utf8_decode r1
      | _ => []
      end
    else if (b <? 0xF0)%N then
      match r with
      | b1 :: b2 :: r2 =>
        ((b - 0xE0) * 0x1000 + (b1 - 0x80) * 0x40 + (b2 - 0x80))%N :: utf8_decode r2
      | _ => []
      end
    else
      match r with
      | b1 :: b2 :: b3 :: r3 =>
        ((b - 0xF0) * 0x40000 + (b1 - 0x80) * 0x1000 + (b2 - 0x80) * 0x40 + (b3 - 0x80))%N
          :: utf8_decode r3
      | _ => []
      end
  end.

Definition py (s : string) : pystr :=
  utf8_decode (map N_of_ascii (list_ascii_of_string s)).

(** [str.isspace] for one code point (CPython's [_PyUnicode_IsWhitespace]). *)
Definition is_space (c : N) : bool :=
  ((0x09 <=? c) && (c <=? 0x0D) || (0x1C <=? c) && (c <=? 0x20)
   || (c =? 0x85) || (c =? 0xA0) || (c =? 0x1680)
   || (0x2000 <=? c) && (c <=? 0x200A)
   || (c =? 0x2028) || (c =? 0x2029) || (c =? 0x202F) || (c =? 0x205F)
   || (c =? 0x3000))%N.

Fixpoint lstrip (s : pystr) : pystr :=
  match s with
  | [] => []
  | c :: r => if is_space c then lstrip r else s
  end.

Definition rstrip (s : pystr) : pystr := reverse (lstrip (reverse s)).

(** [s.strip()] *)
Definition strip (s : pystr) : pystr := rstrip (lstrip s).

Fixpoint startswith (p s : pystr) : bool :=
  match p, s with
  | [], _ => true
  | _ :: _, [] => false
  | a :: p', b :: s' => (a =? b)%N && startswith p' s'
  end.

(** [needle in hay] on strings. *)
Fixpoint str_in (needle hay : pystr) : bool :=
  startswith needle hay ||
  match hay with
  | [] => false
  | _ :: r => str_in needle r
  end.

(** [str(n)] for an [int]. *)
Definition str_int (z : Z) : pystr :=
  map N_of_ascii (list_ascii_of_string (NilEmpty.string_of_int (Z.to_int z))).

(** Exceptions, each with the argument it is raised with: the message, and
    for [KeyError] the missing key. *)
Inductive exn : Type :=
| ValueError (msg : pystr)
| RuntimeError (msg : pystr)
| TypeError (msg : pystr)
| AttributeError (msg : pystr)
| KeyError (msg : pystr)
| IndexError (msg : pystr)
| OverflowError (msg : pystr)
| RequestException (msg : pystr).

(** [str(e)] for an exception raised with a message. *)
Definition exn_str (e : exn) : pystr :=
  match e with
  | ValueError m | RuntimeError m | TypeError m | AttributeError m
  | KeyError m | IndexError m | OverflowError m | RequestException m => m
  end.

(** A call either returns a value or raises. *)
Inductive result (A : Type) : Type :=
| Ok (a : A)
| Raise (e : exn).
Arguments Ok {A} a.
Arguments Raise {A} e.

#[global] Instance result_ret : MRet result := fun A a => Ok a.
#[global] Instance result_bind : MBind result := fun A B k r =>
  match r with
  | Ok a => k a
  | Raise e => Raise e
  end.

Definition is_ok {A} (r : result A) : bool :=
  match r with Ok _ => true | Raise _ => false end.

(** [try: body except Exception as e: handler(e)] *)
Definition try_except {A} (body : result A) (handler : exn -> result A) : result A :=
  match body with
  | Ok a => Ok a
  | Raise e => handler e
  end.

(** Values produced by [json.loads] / [resp.json()].  A float is carried by
    whether it is zero (its truth value) and by its [repr]; a [dict] keeps
    its items in insertion order, keys distinct. *)
Inductive json : Type :=
| JNull
| JBool (b : bool)
| JInt (z : Z)
| JFloat (nonzero : bool) (repr : pystr)
| JStr (s : pystr)
| JArr (l : list json)
| JObj (items : list (pystr * json)).

(** Truth value of a decoded JSON value. *)
Definition truthy (v : json) : bool :=
  match v with
  | JNull => false
  | JBool b => b
  | JInt z => negb (z =? 0)
  | JFloat nz _ => nz
  | JStr s => negb (Nat.eqb (length s) 0)
  | JArr l => negb (Nat.eqb (length l) 0)
  | JObj o => negb (Nat.eqb (length o) 0)
  end.

Fixpoint dict_lookup (k : pystr) (items : list (pystr * json)) : option json :=
  match items with
  | [] => None
  | (k', v) :: r => if decide (k = k') then Some v else dict_lookup k r
  end.

(** [type(v).__name__] *)
Definition type_name (v : json) : pystr :=
  match v with
  | JNull => py "NoneType"
  | JBool _ => py "bool"
  | JInt _ => py "int"
  | JFloat _ _ => py "float"
  | JStr _ => py "str"
  | JArr _ => py "list"
  | JObj _ => py "dict"
  end.

(** [payload.get(k)] and [payload.get(k, dflt)]; a payload that is not a
    [dict] has no [get]. *)
Definition json_get (payload : json) (k : pystr) (dflt : json) : result json :=
  match payload with
  | JObj o => Ok (default dflt (dict_lookup k o))
  | _ => Raise (AttributeError
                  (py "'" ++ type_name payload ++ py "' object has no attribute 'get'"))
  end.

Definition isinstance_list (v : json) : bool :=
  match v with JArr _ => true | _ => false end.

(** [a or b] *)
Definition py_or (a b : json) : json := if truthy a then a else b.

(** [for c in row]: a list yields its elements, a string its characters,
    a dict its keys; anything else is not iterable. *)
Definition iter (v : json) : result (list json) :=
  match v with
  | JArr l => Ok l
  | JStr s => Ok (map (fun c => JStr [c]) s)
  | JObj o => Ok (map (fun kv => JStr (fst kv)) o)
  | _ => Raise (TypeError (py "'" ++ type_name v ++ py "' object is not iterable"))
  end.

Fixpoint mapM {A B} (f : A -> result B) (l : list A) : result (list B) :=
  match l with
  | [] => Ok []
  | a :: r => b ← f a; bs ← mapM f r; Ok (b :: bs)
  end.

Record Table : Type := mkTable { fields : list pystr; rows : list (list pystr) }.

(** ** The parsed HTML document

    What [BeautifulSoup(html, "lxml")] returns: a tree of tags and strings.
    [OtherString] stands for the string kinds that [get_text] leaves out
    (comments, declarations, script and style text). *)
Inductive node : Type :=
| Tag (name : string) (children : list node)
| NavigableString (s : pystr)
| OtherString (s : pystr).

(** [tag.descendants]: every node below [n], in document order. *)
Fixpoint descendants (n : node) : list node :=
  match n with
  | Tag _ cs => flat_map (fun c => c :: descendants c) cs
  | _ => []
  end.

Definition is_tag (names : list string) (n : node) : bool :=
  match n with
  | Tag name _ => bool_decide (name ∈ names)
  | _ => false
  end.

(** [tag.find_all(names)] and [tag.find(name)] (recursive, document order). *)
Definition find_all (names : list string) (n : node) : list node :=
  filter (fun d => is_tag names d = true) (descendants n).

Definition find (name : string) (n : node) : option node :=
  head (find_all [name] n).

(** [tag.get_text(strip=True)]: the stripped, non-empty strings below the
    tag, joined without separator. *)
Definition get_text_strip (n : node) : pystr :=
  concat (omap (fun d =>
                  match d with
                  | NavigableString s =>
                    match strip s with
                    | [] => None
                    | t => Some t
                    end
                  | _ => None
                  end) (descendants n)).

(** ** External collaborators

    The libraries the script calls are parameters of the development:
    the HTTP session, the HTML parser, and the parts of [str] and
    [str.upper] that depend on Unicode tables. *)
Section Script.

(** [repr] of a decoded list or dict. *)
Variable py_repr : json -> pystr.
(** [str.upper] of one code point above ASCII (full case mapping). *)
Variable upper_nonascii : N -> pystr.
(** [BeautifulSoup(html, "lxml")]. *)
Variable BeautifulSoup : pystr -> node.
(** [session.get(url)] followed by [raise_for_status] and [resp.json()],
    respectively [resp.text]. *)
Variable http_json : pystr -> result json.
Variable http_text : pystr -> result pystr.

(** [str(value)] *)
Definition py_str (v : json) : pystr :=
  match v with
  | JNull => py "None"
  | JBool true => py "True"
  | JBool false => py "False"
  | JInt z => str_int z
  | JFloat _ r => r
  | JStr s => s
  | JArr _ | JObj _ => py_repr v
  end.

(** [s.upper()] *)
Definition upper (s : pystr) : pystr :=
  flat_map (fun c =>
              if (c <? 0x80)%N
              then [if (0x61 <=? c)%N && (c <=? 0x7A)%N then (c - 0x20)%N else c]
              else upper_nonascii c) s.

Definition _get_json (url : pystr) : result json := http_json url.

Definition _get_html (url : pystr) : result pystr := http_text url.

Definition norm_cell (value : json) : pystr :=
  match value with
  | JNull => []
  | _ => strip (py_str value)
  end.

Definition _parse_twse_json_table (payload : json) : result Table :=
  f ← json_get payload (py "fields") JNull;
  f1 ← json_get payload (py "fields1") JNull;
  let fields := py_or f f1 in
  data ← json_get payload (py "data") JNull;
  match fields, data with
  | JArr fl, JArr dl =>
    rs ← mapM (fun row => cs ← iter row; Ok (map norm_cell cs)) dl;
    Ok (mkTable (map (fun f => strip (py_str f)) fl) rs)
  | _, _ => Raise (ValueError (py "Unexpected TWSE JSON shape"))
  end.

(** The [for tr in body_rows] loop: rows of the first [<tbody>]. *)
Definition _tbody_rows (table : node) : list (list pystr) :=
  let body_rows :=
    match find "tbody" table with
    | Some tbody => find_all ["tr"] tbody
    | None => []
    end in
  filter (fun cells => cells <> [])
         (map (fun tr => map get_text_strip (find_all ["td"; "th"] tr)) body_rows).

(** The [for tr in table.find_all("tr")] loop, run when the first found
    no row. *)
Definition _all_tr_rows (table : node) : list (list pystr) :=
  filter (fun cells => cells <> [])
         (map (fun tr => map get_text_strip (find_all ["td"] tr)) (find_all ["tr"] table)).

Definition _parse_html_first_table (html : pystr) : result Table :=
  let soup := BeautifulSoup html in
  match find "table" soup with
  | None => Raise (ValueError (py "No <table> found"))
  | Some table =>
    match find "thead" table with
    | None => Raise (ValueError (py "No <thead> found"))
    | Some thead =>
      let header_rows := find_all ["tr"] thead in
      match last header_rows with
      | None => Raise (ValueError (py "No header rows"))
      | Some header_row =>
        let header_cells := find_all ["th"; "td"] header_row in
        let fields := map get_text_strip header_cells in
        let rows := _tbody_rows table in
        let rows :=
          match rows with
          | [] => _all_tr_rows table
          | _ => rows
          end in
        Ok (mkTable fields rows)
      end
    end
  end.

(** *** Fallback fetcher *)

(** Body of the [try] block run for one JSON candidate. *)
Definition _try_json (url : pystr) : result (Table * pystr) :=
  payload ← _get_json url;
  v ← json_get payload (py "stat") (JStr (py "OK"));
  let stat := upper (py_str v) in
  if negb (str_in (py "OK") stat)
  then v' ← json_get payload (py "stat") JNull;
       Raise (ValueError (py "TWSE stat not OK: " ++ py_str v'))
  else
    table ← _parse_twse_json_table payload;
    match rows table with
    | [] => Raise (ValueError (py "No rows"))
    | _ => Ok (table, url)
    end.

(** The [for url in candidates] loop: [inl] is the early [return], [inr]
    the value of [last_err] when the loop runs to its end. *)
Fixpoint _json_loop (candidates : list pystr) (last_err : option exn)
  : (Table * pystr) + option exn :=
  match candidates with
  | [] => inr last_err
  | url :: rest =>
    match _try_json url with
    | Ok r => inl r
    | Raise e => _json_loop rest (Some e)
    end
  end.

(** Body of the final [try] block, on the HTML page. *)
Definition _try_html (url : pystr) : result (Table * pystr) :=
  html ← _get_html url;
  table ← _parse_html_first_table html;
  match rows table with
  | [] => Raise (ValueError (py "No rows"))
  | _ => Ok (table, url)
  end.

(** [last_err or e]: an exception object is always true. *)
Definition last_err_or (last_err : option exn) (e : exn) : exn :=
  match last_err with
  | Some le => le
  | None => e
  end.

Definition fetch_bfi84u (base_date_yyyymmdd : pystr) : result (Table * pystr) :=
  let candidates :=
    [ py "https://www.twse.com.tw/rwd/zh/marginTrading/BFI84U?response=json";
      py "https://www.twse.com.tw/rwd/zh/marginTrading/BFI84U?response=json&date="
        ++ base_date_yyyymmdd;
      py "https://www.twse.com.tw/exchangeReport/BFI84U?response=json";
      py "https://www.twse.com.tw/exchangeReport/BFI84U?response=json&date="
        ++ base_date_yyyymmdd ] in
  match _json_loop candidates None with
  | inl r => Ok r
  | inr last_err =>
    let url := py "https://www.twse.com.tw/zh/trading/margin/bfi84u.html" in
    try_except (_try_html url)
      (fun e => Raise (RuntimeError
                         (py "Failed to fetch BFI84U: " ++ exn_str (last_err_or last_err e))))
  end.

Definition fetch_twt93u (yyyymmdd : pystr) : result (Table * pystr) :=
  let candidates :=
    [ py "https://www.twse.com.tw/rwd/zh/marginTrading/TWT93U?response=json&date=" ++ yyyymmdd;
      py "https://www.twse.com.tw/exchangeReport/TWT93U?response=json&date=" ++ yyyymmdd ] in
  match _json_loop candidates None with
  | inl r => Ok r
  | inr last_err =>
    let url := py "https://www.twse.com.tw/zh/trading/margin/twt93u.html" in
    try_except (_try_html url)
      (fun e => Raise (RuntimeError
                         (py "Failed to fetch TWT93U for " ++ yyyymmdd ++ py ": "
                             ++ exn_str (last_err_or last_err e))))
  end.

(** *** Column resolver *)

(** [re.search(r"代號|證券代號|股票代號", f)] *)
Definition re_search_code (f : pystr) : bool :=
  str_in (py "代號") f || str_in (py "證券代號") f || str_in (py "股票代號") f.

Definition _find_stock_code_col (fields : list pystr) : nat :=
  match list_find (fun f => re_search_code f = true) fields with
  | Some (i, _) => i
  | None => 0%nat
  end.

(** Order on the [(score, index)] tuples. *)
Definition tuple_ltb (a b : Z * nat) : bool :=
  (fst a <? fst b) || (fst a =? fst b) && (snd a <? snd b)%nat.

Fixpoint insert_desc (x : Z * nat) (l : list (Z * nat)) : list (Z * nat) :=
  match l with
  | [] => [x]
  | y :: r => if tuple_ltb x y then y :: insert_desc x r else x :: l
  end.

(** [sorted(l, reverse=True)] on tuples. *)
Definition sorted_reverse (l : list (Z * nat)) : list (Z * nat) :=
  foldr insert_desc [] l.

(** [[i for i, f in enumerate(fields) if target in f]] *)
Definition candidates_of (fields : list pystr) (target : pystr) : list nat :=
  omap (fun '(i, f) => if str_in target f then Some i else None)
       (zip (seq 0 (length fields)) fields).

Definition _pick_index (fields : list pystr) (target : pystr) (score_fn : nat -> Z)
  : result nat :=
  match candidates_of fields target with
  | [] => Raise (ValueError (py "Missing column: " ++ target))
  | candidates =>
    match sorted_reverse (map (fun i => (score_fn i, i)) candidates) with
    | (_, i) :: _ => Ok i
    | [] => Raise (IndexError (py "list index out of range"))
    end
  end.

(** [k >= 0 and marker in fields[k]], for [k = i - back]; the score
    functions are only called on indices of [fields]. *)
Definition header_has (fields : list pystr) (marker : pystr) (k : nat) : bool :=
  match fields !! k with
  | Some f => str_in marker f
  | None => false
  end.

Definition score_short (fields : list pystr) (i : nat) : Z :=
  foldl (fun score '(back, pts) =>
           if (back <=? i)%nat && header_has fields (py "現券") (i - back)
           then score + pts else score)
        0 [(1%nat, 2); (2%nat, 1); (3%nat, 1)].

Definition score_borrow (fields : list pystr) (i : nat) : Z :=
  let score := 0 in
  let score :=
    if (i + 1 <? length fields)%nat
       && (header_has fields (py "次一") (i + 1) || header_has fields (py "限額") (i + 1))
    then score + 2 else score in
  let score :=
    if (1 <=? i)%nat && header_has fields (py "當日調整") (i - 1)
    then score + 1 else score in
  score.

Definition _twt93u_indices (fields : list pystr) : result (nat * nat * nat) :=
  let code_idx := _find_stock_code_col fields in
  short_idx ← _pick_index fields (py "今日餘額") (score_short fields);
  borrow_idx ← _pick_index fields (py "當日餘額") (score_borrow fields);
  Ok (code_idx, short_idx, borrow_idx).

(** *** Dates

    A [datetime.date] is carried by its proleptic Gregorian ordinal
    ([date.toordinal()], day 1 is 0001-01-01). *)
Abbreviation date := Z.

Definition _DAYS_IN_MONTH (m : Z) : Z :=
  nth (Z.to_nat m) [-1; 31; 28; 31; 30; 31; 30; 31; 31; 30; 31; 30; 31] 0.

Definition _DAYS_BEFORE_MONTH (m : Z) : Z :=
  nth (Z.to_nat m) [-1; 0; 31; 59; 90; 120; 151; 181; 212; 243; 273; 304; 334] 0.

(** [datetime._ord2ymd]: ordinal to (year, month, day). *)
Definition _ord2ymd (n : Z) : Z * Z * Z :=
  let n := n - 1 in
  let n400 := n / 146097 in let n := n mod 146097 in
  let year := n400 * 400 + 1 in
  let n100 := n / 36524 in let n := n mod 36524 in
  let n4 := n / 1461 in let n := n mod 1461 in
  let n1 := n / 365 in let n := n mod 365 in
  let year := year + n100 * 100 + n4 * 4 + n1 in
  if (n1 =? 4) || (n100 =? 4) then (year - 1, 12, 31)
  else
    let leapyear := (n1 =? 3) && (negb (n4 =? 24) || (n100 =? 3)) in
    let month := Z.shiftr (n + 50) 5 in
    let preceding :=
      _DAYS_BEFORE_MONTH month + (if (2 <? month) && leapyear then 1 else 0) in
    if n <? preceding then
      let month := month - 1 in
      let preceding :=
        preceding - (_DAYS_IN_MONTH month + (if (month =? 2) && leapyear then 1 else 0)) in
      (year, month, n - preceding + 1)
    else (year, month, n - preceding + 1).

(** [str(n).zfill(width)] for a non-negative number. *)
Definition zfill (width : nat) (n : Z) : pystr :=
  let s := str_int n in
  replicate (width - length s) 0x30%N ++ s.

(** [d.strftime("%Y%m%d")] *)
Definition _yyyymmdd (d : date) : pystr :=
  let '(y, m, dd) := _ord2ymd d in
  zfill 4 y ++ zfill 2 m ++ zfill 2 dd.

(** [cursor - timedelta(days=1)]: there is no date before [date.min]. *)
Definition date_sub_day (cursor : date) : result date :=
  if 1 <? cursor then Ok (cursor - 1)
  else Raise (OverflowError (py "date value out of range")).

(** *** Trading-calendar resolver *)

(** The [for _ in range(max_lookback_days)] loop, [n] iterations left.
    Besides the two locals of the source the loop threads [probed], the
    dates handed to [fetch_twt93u] so far; it is returned next to the
    outcome. *)
Fixpoint _lookback (count : Z) (n : nat) (cursor : date) (trading : list date)
    (tables : gmap pystr (Table * pystr)) (probed : list date)
  : list date * result (list date * gmap pystr (Table * pystr)) :=
  match n with
  | O => (probed, Ok (trading, tables))
  | S n' =>
    let ds := _yyyymmdd cursor in
    let probed := probed ++ [cursor] in
    match fetch_twt93u ds with
    | Ok (table, url) =>
      let trading := trading ++ [cursor] in
      let tables := <[ds := (table, url)]> tables in
      if count <=? Z.of_nat (length trading) then (probed, Ok (trading, tables))
      else
        match date_sub_day cursor with
        | Ok cursor' => _lookback count n' cursor' trading tables probed
        | Raise e => (probed, Raise e)
        end
    | Raise _ =>
      match date_sub_day cursor with
      | Ok cursor' => _lookback count n' cursor' trading tables probed
      | Raise e => (probed, Raise e)
      end
    end
  end.

(** [compute_trading_dates] together with the probed dates. *)
Definition compute_trading_dates_probed (base : date) (count max_lookback_days : Z)
  : list date * result (list date * gmap pystr (Table * pystr)) :=
  let '(probed, r) := _lookback count (Z.to_nat max_lookback_days) base [] ∅ [] in
  (probed,
   '(trading, tables) ← r;
   if Z.of_nat (length trading) <? count
   then Raise (RuntimeError (py "Only found " ++ str_int (Z.of_nat (length trading))
                                ++ py " trading days within lookback window"))
   else Ok (trading, tables)).

Definition compute_trading_dates (base : date) (count max_lookback_days : Z)
  : result (list date * gmap pystr (Table * pystr)) :=
  snd (compute_trading_dates_probed base count max_lookback_days).

(** *** Merger *)

(** [row[i].strip() if i < len(row) else ""] *)
Definition stripped_cell (row : list pystr) (i : nat) : pystr :=
  match row !! i with
  | Some v => strip v
  | None => []
  end.

(** The [for row in table.rows] loop of [build_twt93u_maps]. *)
Definition _date_map (code_idx short_idx borrow_idx : nat) (table_rows : list (list pystr))
  : gmap pystr (pystr * pystr) :=
  foldl (fun (date_map : gmap pystr (pystr * pystr)) (row : list pystr) =>
           match row !! code_idx with
           | None => date_map
           | Some c =>
             let code := strip c in
             match code with
             | [] => date_map
             | _ =>
               let short_val := stripped_cell row short_idx in
               let borrow_val := stripped_cell row borrow_idx in
               <[code := (short_val, borrow_val)]> date_map
             end
           end) ∅ table_rows.

Fixpoint _build_loop (trading_dates : list date) (tables_by_date : gmap pystr (Table * pystr))
    (maps : gmap pystr (gmap pystr (pystr * pystr))) (source_urls : gmap pystr pystr)
  : result (gmap pystr (gmap pystr (pystr * pystr)) * gmap pystr pystr) :=
  match trading_dates with
  | [] => Ok (maps, source_urls)
  | d :: rest =>
    let ds := _yyyymmdd d in
    match tables_by_date !! ds with
    | None => Raise (KeyError ds)
    | Some (table, url) =>
      let source_urls := <[ds := url]> source_urls in
      '(code_idx, short_idx, borrow_idx) ← _twt93u_indices (fields table);
      let date_map := _date_map code_idx short_idx borrow_idx (rows table) in
      _build_loop rest tables_by_date (<[ds := date_map]> maps) source_urls
    end
  end.

Definition build_twt93u_maps (trading_dates : list date)
    (tables_by_date : gmap pystr (Table * pystr))
  : result (gmap pystr (gmap pystr (pystr * pystr)) * gmap pystr pystr) :=
  _build_loop trading_dates tables_by_date ∅ ∅.

(** The em-dash placeholder. *)
Definition sentinel : pystr := py "—".

(** [s or "—"] on strings. *)
Definition or_sentinel (s : pystr) : pystr :=
  match s with
  | [] => sentinel
  | _ => s
  end.

(** The [extras] of one base row: body of the [for d in trading_dates] loop. *)
Definition extras_of (trading_dates : list date)
    (twt_maps : gmap pystr (gmap pystr (pystr * pystr))) (code : pystr) : list pystr :=
  flat_map (fun d =>
              let ds := _yyyymmdd d in
              let found := default ∅ (twt_maps !! ds) !! code in
              let '(short_val, borrow_val) :=
                match found with
                | Some p => p
                | None => ([], [])
                end in
              [or_sentinel short_val; or_sentinel borrow_val]) trading_dates.

(** The [for row in bfi_table.rows] loop of [main]. *)
Definition combined_rows (code_idx : nat) (trading_dates : list date)
    (twt_maps : gmap pystr (gmap pystr (pystr * pystr))) (bfi_rows : list (list pystr))
  : list (list pystr) :=
  map (fun row =>
         let code := stripped_cell row code_idx in
         row ++ extras_of trading_dates twt_maps code) bfi_rows.

(** [[f"D{-i}" if i else "D0" for i in range(n)]] *)
Definition labels_of (n : nat) : list pystr :=
  map (fun i => match i with
                | O => py "D0"
                | _ => py "D" ++ str_int (- Z.of_nat i)
                end) (seq 0 n).

Definition appended_fields (labels : list pystr) : list pystr :=
  flat_map (fun label => [py "融券_今日餘額_" ++ label; py "借券_當日餘額_" ++ label]) labels.

(** [main] up to the point where the files are written: the combined
    header and rows for the base date [now.date()]. *)
Definition main (base_date : date) : result (list pystr * list (list pystr)) :=
  '(trading_dates, tables_by_date) ← compute_trading_dates base_date 5 45;
  let labels := labels_of (length trading_dates) in
  '(twt_maps, twt_urls) ← build_twt93u_maps trading_dates tables_by_date;
  '(bfi_table, bfi_url) ← fetch_bfi84u (_yyyymmdd base_date);
  let code_idx := _find_stock_code_col (fields bfi_table) in
  let combined_fields := fields bfi_table ++ appended_fields labels in
  Ok (combined_fields, combined_rows code_idx trading_dates twt_maps (rows bfi_table)).

(** ** Auxiliary definitions and sample inputs *)

(** The value the parser takes as the header list. *)
Definition fields_entry (o : list (pystr * json)) : json :=
  py_or (default JNull (dict_lookup (py "fields") o))
        (default JNull (dict_lookup (py "fields1") o)).

(** The calendar days a walk of [n] days from [base] visits, most recent
    first. *)
Definition lookback_days (base : date) (n : nat) : list date :=
  map (fun k => base - Z.of_nat k) (seq 0 n).

(** A day is a trading day when the lending report can be fetched for it. *)
Definition is_trading_day (d : date) : bool := is_ok (fetch_twt93u (_yyyymmdd d)).

(** The balances recorded for [code] on date [d], if any. *)
Definition balance_entry (twt_maps : gmap pystr (gmap pystr (pystr * pystr)))
    (d : date) (code : pystr) : option (pystr * pystr) :=
  default ∅ (twt_maps !! _yyyymmdd d) !! code.

(** The row's code cell is in range and strips to [code]. *)
Definition has_code (code_idx : nat) (code : pystr) (row : list pystr) : bool :=
  match row !! code_idx with
  | Some c => bool_decide (strip c = code)
  | None => false
  end.

(** Stand-ins for the collaborators, used to run the script on examples. *)
Definition sample_repr (v : json) : pystr := py "[...]".

Definition sample_upper (c : N) : pystr := [c].

Definition soup_empty (html : pystr) : node := Tag "[document]" [].

(** A table with a header row and no data row, and a page that holds it. *)
Definition table_header_only : node :=
  Tag "table"
    [Tag "thead"
       [Tag "tr" [Tag "th" [NavigableString (py " 股票代號 ")];
                  Tag "th" [NavigableString (py "今日餘額")]]];
     Tag "tbody" []].

Definition soup_header_only (html : pystr) : node :=
  Tag "[document]" [Tag "html" [Tag "body" [table_header_only]]].

Definition net_down_json (url : pystr) : result json :=
  Raise (RequestException (py "json endpoint unreachable")).

Definition net_down_text (url : pystr) : result pystr :=
  Raise (RequestException (py "html page unreachable")).

Definition payload_empty_fields : json :=
  JObj [(py "fields", JArr []); (py "data", JArr [])].

Definition payload_no_stat : json :=
  JObj [(py "fields", JArr [JStr (py "股票代號 "); JStr (py "今日餘額")]);
        (py "data", JArr [JArr [JStr (py " 2330"); JNull]; JArr [JStr (py "2317"); JInt 12]])].

Definition twt93u_payload : json :=
  JObj [(py "stat", JStr (py "OK"));
        (py "fields", JArr [JStr (py "股票代號"); JStr (py "現券"); JStr (py "今日餘額");
                            JStr (py "當日調整"); JStr (py "當日餘額"); JStr (py "次一營業日")]);
        (py "data", JArr [JArr [JStr (py "2330"); JStr (py "0"); JStr (py "1,200");
                                JStr (py "0"); JStr (py "3,400"); JStr (py "9")]])].

(** A network on which the lending report exists exactly for [open_days]. *)
Definition calendar_json (open_days : list date) (url : pystr) : result json :=
  if bool_decide
       (url ∈ map (fun d =>
                     py "https://www.twse.com.tw/rwd/zh/marginTrading/TWT93U?response=json&date="
                        ++ _yyyymmdd d) open_days)
  then Ok twt93u_payload
  else Raise (RequestException (py "404 Not Found")).

(** Wednesday 2026-11-04 and the six days before it; the 1st of November
    and the 31st of October fall on a weekend. *)
Definition week_open_days : list date := [739924; 739923; 739922; 739919; 739918].

Definition always_open_json (url : pystr) : result json := Ok twt93u_payload.

Definition sample_header : list pystr :=
  [py "股票代號"; py "現券"; py "今日餘額A"; py "今日餘額B"; py "備註"].

Definition tied_header : list pystr :=
  [py "股票代號"; py "今日餘額A"; py "今日餘額B"; py "當日餘額A"; py "當日餘額B"].

Definition sample_dates : list date := [739924; 739923].

Definition sample_maps : gmap pystr (gmap pystr (pystr * pystr)) :=
  <[_yyyymmdd 739924 := <[py "2330" := ([], py "5")]> ∅]>
    (<[_yyyymmdd 739923 := <[py "2330" := (py "7", py "8")]> (<[py "2317" := (py "1", py "2")]> ∅)]> ∅).

Definition sample_bfi_rows : list (list pystr) :=
  [[py "2330"; py "台積電"]; [py "2317 "; py "鴻海"]; [py "9999"; py "無"]].

Definition sample_twt_rows : list (list pystr) :=
  [[py "2330"; py "1"; py "2"]; [py ""; py "x"; py "y"]; [py "2330 "; py " 3"];
   []; [py "2317"; py "4"; py "5"]].

Definition no_stat_json (url : pystr) : result json := Ok payload_no_stat.

(** A text without leading or trailing whitespace. *)
Definition trimmed (s : pystr) : Prop :=
  (forall c, head s = Some c -> is_space c = false)
  /\ (forall c, last s = Some c -> is_space c = false).

(** A page whose table has a grouped, two-row header and one body row. *)
Definition soup_two_header_rows (html : pystr) : node :=
  Tag "[document]"
    [Tag "table"
       [Tag "thead"
          [Tag "tr" [Tag "th" [NavigableString (py "融券")]];
           Tag "tr" [Tag "th" [NavigableString (py " 股票代號")];
                     Tag "td" [Tag "b" [NavigableString (py "今日"); OtherString (py "x");
                                        NavigableString (py " 餘額 ")]]]];
        Tag "tbody"
          [Tag "tr" [Tag "td" [NavigableString (py " 2330 ")]; Tag "td" []];
           Tag "tr" []]]].

(** The JSON candidates of the two fetchers, in the order they are tried. *)
Definition twt93u_candidates (yyyymmdd : pystr) : list pystr :=
  [ py "https://www.twse.com.tw/rwd/zh/marginTrading/TWT93U?response=json&date=" ++ yyyymmdd;
    py "https://www.twse.com.tw/exchangeReport/TWT93U?response=json&date=" ++ yyyymmdd ].

Definition bfi84u_candidates (base_date_yyyymmdd : pystr) : list pystr :=
  [ py "https://www.twse.com.tw/rwd/zh/marginTrading/BFI84U?response=json";
    py "https://www.twse.com.tw/rwd/zh/marginTrading/BFI84U?response=json&date="
      ++ base_date_yyyymmdd;
    py "https://www.twse.com.tw/exchangeReport/BFI84U?response=json";
    py "https://www.twse.com.tw/exchangeReport/BFI84U?response=json&date="
      ++ base_date_yyyymmdd ].

Definition twt93u_html_url : pystr := py "https://www.twse.com.tw/zh/trading/margin/twt93u.html".

Definition bfi84u_html_url : pystr := py "https://www.twse.com.tw/zh/trading/margin/bfi84u.html".

(** A network whose first TWT93U endpoint is down and whose second one
    answers, with a lower-case status. *)
Definition second_endpoint_json (url : pystr) : result json :=
  if bool_decide (url = py "https://www.twse.com.tw/exchangeReport/TWT93U?response=json&date=20261104")
  then Ok (JObj [(py "stat", JStr (py "ok"));
                 (py "fields", JArr [JStr (py "股票代號")]);
                 (py "data", JArr [JArr [JStr (py "2330")]])])
  else Raise (RequestException (py "503 Service Unavailable")).

(** The cache holds, under the text of each trading date, the result of
    that date's fetch, and nothing else. *)
Definition cache_ok (tables : gmap pystr (Table * pystr)) (trading : list date) : Prop :=
  forall k v,
    tables !! k = Some v <->
    exists d, d ∈ trading /\ k = _yyyymmdd d /\ fetch_twt93u k = Ok v.

Definition sample_twt_table : Table :=
  mkTable [py "股票代號"; py "現券"; py "今日餘額"; py "當日調整"; py "當日餘額"; py "次一營業日"]
          [[py "2330"; py "0"; py " 1,200"; py "0"; py "3,400 "; py "9"]].

Definition sample_tables : gmap pystr (Table * pystr) :=
  <[py "20261104" := (sample_twt_table, py "https://www.twse.com.tw/x")]> ∅.

(** A network whose lending report has lost its lending-balance column. *)
Definition short_only_json (url : pystr) : result json :=
  Ok (JObj [(py "stat", JStr (py "OK"));
            (py "fields", JArr [JStr (py "股票代號"); JStr (py "今日餘額")]);
            (py "data", JArr [JArr [JStr (py "2330"); JStr (py "7")]])]).

Definition joined_maps : gmap pystr (gmap pystr (pystr * pystr)) :=
  <[_yyyymmdd 739924 := _date_map 0 1 2 sample_twt_rows]> ∅.

(** An endpoint that answers with a JSON array instead of an object. *)
Definition array_payload_json (url : pystr) : result json := Ok (JArr []).

(** ** Properties *)

(** *** Strings *)

Lemma lstrip_split (s : pystr) :
  exists l, s = l ++ lstrip s /\ Forall (fun c => is_space c = true) l.
Proof.
  induction s as [|c r IH]; simpl.
  - exists []. split; [reflexivity | constructor].
  - destruct (is_space c) eqn:Hc.
    + destruct IH as (l & Hl & Hsp). exists (c :: l). split.
      * simpl. congruence.
      * constructor; assumption.
    + exists []. split; [reflexivity | constructor].
Qed.

Lemma lstrip_head (s : pystr) (c : N) :
  head (lstrip s) = Some c -> is_space c = false.
Proof.
  induction s as [|a r IH]; simpl; [discriminate|].
  destruct (is_space a) eqn:Ha; [exact IH|].
  simpl. intros [= <-]. exact Ha.
Qed.

Lemma lstrip_fixed (s : pystr) :
  (forall c, head s = Some c -> is_space c = false) -> lstrip s = s.
Proof.
  destruct s as [|a r]; simpl; [reflexivity|].
  intros H. rewrite (H a eq_refl). reflexivity.
Qed.

Lemma strip_split (s : pystr) :
  exists l r, s = l ++ strip s ++ r
              /\ Forall (fun c => is_space c = true) l
              /\ Forall (fun c => is_space c = true) r.
Proof.
  unfold strip, rstrip.
  destruct (lstrip_split s) as (l & Hl & Hlsp).
  destruct (lstrip_split (reverse (lstrip s))) as (r & Hr & Hrsp).
  exists l, (reverse r). split; [|split].
  - rewrite Hl at 1. f_equal.
    rewrite <- reverse_app, <- Hr, reverse_involutive. reflexivity.
  - exact Hlsp.
  - apply Forall_reverse. exact Hrsp.
Qed.

Lemma strip_last (s : pystr) (c : N) :
  last (strip s) = Some c -> is_space c = false.
Proof.
  unfold strip, rstrip. rewrite last_reverse. apply lstrip_head.
Qed.

Lemma strip_head (s : pystr) (c : N) :
  head (strip s) = Some c -> is_space c = false.
Proof.
  unfold strip, rstrip.
  destruct (lstrip_split (reverse (lstrip s))) as (r & Hr & _).
  remember (lstrip (reverse (lstrip s))) as u eqn:Hu.
  assert (Ht : lstrip s = reverse u ++ reverse r).
  { rewrite <- reverse_app, <- Hr, reverse_involutive. reflexivity. }
  intros Hh. apply (lstrip_head s).
  rewrite Ht. destruct (reverse u) as [|a t]; [discriminate|]. exact Hh.
Qed.

Lemma strip_idempotent (s : pystr) : strip (strip s) = strip s.
Proof.
  assert (H1 : lstrip (strip s) = strip s).
  { apply lstrip_fixed. apply strip_head. }
  unfold strip at 1. rewrite H1. unfold rstrip.
  rewrite lstrip_fixed, reverse_involutive; [reflexivity|].
  intros c Hc. apply (strip_last s). rewrite <- head_reverse. exact Hc.
Qed.

(** *** JSON table parser *)

Lemma bind_Ok {A B} (a : A) (k : A -> result B) : (Ok a ≫= k) = k a.
Proof. reflexivity. Qed.

Lemma mapM_Ok {A B} (f : A -> result B) (l : list A) (bs : list B) :
  mapM f l = Ok bs <-> Forall2 (fun a b => f a = Ok b) l bs.
Proof.
  revert bs. induction l as [|a r IH]; intros bs; simpl.
  - split.
    + intros [= <-]. constructor.
    + intros H. inversion H. reflexivity.
  - split.
    + destruct (f a) as [b|e] eqn:Hf; simpl; [|discriminate].
      destruct (mapM f r) as [bs'|e] eqn:Hm; simpl; [|discriminate].
      intros [= <-]. constructor; [exact Hf | apply IH; reflexivity].
    + intros H. inversion H as [|a' b r' bs' Hf Hr]; subst.
      rewrite Hf. simpl. apply IH in Hr. rewrite Hr. reflexivity.
Qed.

Lemma norm_cell_row (row : json) (cells : list pystr) :
  (cs ← iter row; Ok (map norm_cell cs)) = Ok cells
  <-> exists cs, iter row = Ok cs /\ cells = map norm_cell cs.
Proof.
  destruct (iter row) as [cs|e]; simpl.
  - split.
    + intros [= <-]. exists cs. split; reflexivity.
    + intros (cs' & [= <-] & ->). reflexivity.
  - split; [discriminate|]. intros (cs' & Hcs & _). discriminate.
Qed.

Lemma parse_twse_json_table_Ok (payload : json) (t : Table) :
  _parse_twse_json_table payload = Ok t <->
  exists o fl dl rs,
    payload = JObj o
    /\ fields_entry o = JArr fl
    /\ dict_lookup (py "data") o = Some (JArr dl)
    /\ Forall2 (fun row cells => exists cs, iter row = Ok cs /\ cells = map norm_cell cs) dl rs
    /\ t = mkTable (map (fun f => strip (py_str f)) fl) rs.
Proof.
  unfold _parse_twse_json_table, fields_entry.
  destruct payload as [| | | | | |o]; simpl;
    try (split; [discriminate | intros (o' & fl & dl & rs & Hp & _); discriminate]).
  remember (py_or _ _) as fe eqn:Hfe.
  split.
  - destruct fe as [| | | | |fl|]; try discriminate.
    destruct (dict_lookup (py "data") o) as [[| | | | |dl|]|] eqn:Hd;
      simpl; try discriminate.
    destruct (mapM _ dl) as [rs|e] eqn:Hm; simpl; [|discriminate].
    intros [= <-]. exists o, fl, dl, rs.
    split; [reflexivity|]. split; [symmetry; exact Hfe|]. split; [exact Hd|].
    split; [|reflexivity].
    apply mapM_Ok in Hm.
    eapply Forall2_impl; [exact Hm|]. intros row cells H. apply norm_cell_row. exact H.
  - intros (o' & fl & dl & rs & [= <-] & Hfe' & Hd & Hrs & ->).
    rewrite Hfe' in Hfe. rewrite Hfe, Hd. simpl.
    assert (Hm : mapM (fun row => cs ← iter row; Ok (map norm_cell cs)) dl = Ok rs).
    { apply mapM_Ok. eapply Forall2_impl; [exact Hrs|].
      intros row cells H. apply norm_cell_row. exact H. }
    rewrite Hm. reflexivity.
Qed.

Lemma parse_twse_json_table_shape (o : list (pystr * json)) :
  isinstance_list (fields_entry o) = false
  \/ isinstance_list (default JNull (dict_lookup (py "data") o)) = false ->
  _parse_twse_json_table (JObj o) = Raise (ValueError (py "Unexpected TWSE JSON shape")).
Proof.
  unfold _parse_twse_json_table, fields_entry. simpl.
  set (fe := py_or _ _). set (d := default _ _).
  intros [H|H].
  - destruct fe; try discriminate; reflexivity.
  - destruct d; try discriminate; destruct fe; reflexivity.
Qed.

Lemma norm_cell_trimmed (v : json) :
  (v = JNull -> norm_cell v = [])
  /\ (v <> JNull -> norm_cell v = strip (py_str v))
  /\ (forall c, head (norm_cell v) = Some c -> is_space c = false)
  /\ (forall c, last (norm_cell v) = Some c -> is_space c = false).
Proof.
  split; [intros ->; reflexivity|].
  split; [destruct v; try reflexivity; intros H; contradiction H; reflexivity|].
  split; intros c; destruct v; simpl; try discriminate;
    first [apply strip_head | apply strip_last].
Qed.

(** C8 (as amended).  The JSON table parser returns a table exactly when the
    payload is an object whose header entry -- [fields], or [fields1] when
    [fields] is absent or false (an empty array included) -- is an array,
    whose [data] entry is an array, and whose data rows can all be iterated;
    a header entry or [data] that is not an array raises [ValueError].  The
    table then holds every cell stringified and stripped, a null cell as
    the empty string. *)
Theorem parse_twse_json_table_contract (payload : json) :
  (forall t,
      _parse_twse_json_table payload = Ok t <->
      exists o fl dl rs,
        payload = JObj o
        /\ fields_entry o = JArr fl
        /\ dict_lookup (py "data") o = Some (JArr dl)
        /\ Forall2 (fun row cells => exists cs, iter row = Ok cs /\ cells = map norm_cell cs)
                   dl rs
        /\ t = mkTable (map (fun f => strip (py_str f)) fl) rs)
  /\ (forall o,
         payload = JObj o ->
         isinstance_list (fields_entry o) = false
         \/ isinstance_list (default JNull (dict_lookup (py "data") o)) = false ->
         _parse_twse_json_table payload = Raise (ValueError (py "Unexpected TWSE JSON shape")))
  /\ (forall v,
         (v = JNull -> norm_cell v = [])
         /\ (v <> JNull -> norm_cell v = strip (py_str v))
         /\ (forall c, head (norm_cell v) = Some c -> is_space c = false)
         /\ (forall c, last (norm_cell v) = Some c -> is_space c = false)).
Proof.
  split; [|split].
  - intros t. apply parse_twse_json_table_Ok.
  - intros o -> H. apply parse_twse_json_table_shape. exact H.
  - apply norm_cell_trimmed.
Qed.

(** *** Fallback fetcher *)

Lemma upper_OK : str_in (py "OK") (upper (py "OK")) = true.
Proof. vm_compute. reflexivity. Qed.

(** C9.  A JSON candidate whose payload has no [stat] entry is taken as
    status OK and goes on to the table parser; a candidate is turned down
    for its status only when [stat] is present and its upper-cased text
    does not contain [OK]. *)
Theorem try_json_missing_stat_is_ok (url : pystr) (o : list (pystr * json)) :
  http_json url = Ok (JObj o) ->
  let parse_and_check :=
    table ← _parse_twse_json_table (JObj o);
    match rows table with
    | [] => Raise (ValueError (py "No rows"))
    | _ => Ok (table, url)
    end in
  (dict_lookup (py "stat") o = None -> _try_json url = parse_and_check)
  /\ (forall v,
         dict_lookup (py "stat") o = Some v ->
         _try_json url =
         if str_in (py "OK") (upper (py_str v)) then parse_and_check
         else Raise (ValueError (py "TWSE stat not OK: " ++ py_str v))).
Proof.
  intros Hget parse_and_check. unfold _try_json, _get_json. rewrite Hget.
  rewrite bind_Ok.
  split.
  - intros Hnone. unfold json_get. rewrite Hnone. cbn [default from_option id]. rewrite bind_Ok.
    change (py_str (JStr (py "OK"))) with (py "OK").
    rewrite upper_OK. reflexivity.
  - intros v Hv. unfold json_get. rewrite Hv. cbn [default from_option id]. rewrite !bind_Ok.
    destruct (str_in (py "OK") (upper (py_str v))); reflexivity.
Qed.

(** C5 (as amended).  When every JSON candidate and the HTML page fail, the
    fetcher raises [RuntimeError] whose message carries the error of the
    last JSON candidate; the error of the HTML attempt is not reported. *)
Theorem fetch_exhausted_reports_last_json_error :
  (forall ds e1 e2 e3,
      _try_json (py "https://www.twse.com.tw/rwd/zh/marginTrading/TWT93U?response=json&date="
                    ++ ds) = Raise e1 ->
      _try_json (py "https://www.twse.com.tw/exchangeReport/TWT93U?response=json&date="
                    ++ ds) = Raise e2 ->
      _try_html (py "https://www.twse.com.tw/zh/trading/margin/twt93u.html") = Raise e3 ->
      fetch_twt93u ds
      = Raise (RuntimeError (py "Failed to fetch TWT93U for " ++ ds ++ py ": " ++ exn_str e2)))
  /\ (forall ds e1 e2 e3 e4 e5,
         _try_json (py "https://www.twse.com.tw/rwd/zh/marginTrading/BFI84U?response=json")
         = Raise e1 ->
         _try_json (py "https://www.twse.com.tw/rwd/zh/marginTrading/BFI84U?response=json&date="
                       ++ ds) = Raise e2 ->
         _try_json (py "https://www.twse.com.tw/exchangeReport/BFI84U?response=json")
         = Raise e3 ->
         _try_json (py "https://www.twse.com.tw/exchangeReport/BFI84U?response=json&date="
                       ++ ds) = Raise e4 ->
         _try_html (py "https://www.twse.com.tw/zh/trading/margin/bfi84u.html") = Raise e5 ->
         fetch_bfi84u ds
         = Raise (RuntimeError (py "Failed to fetch BFI84U: " ++ exn_str e4))).
Proof.
  split.
  - intros ds e1 e2 e3 H1 H2 H3. unfold fetch_twt93u.
    cbn [_json_loop]. rewrite H1, H2, H3. reflexivity.
  - intros ds e1 e2 e3 e4 e5 H1 H2 H3 H4 H5. unfold fetch_bfi84u.
    cbn [_json_loop]. rewrite H1, H2, H3, H4, H5. reflexivity.
Qed.

(** *** HTML table parser *)

(** C4 (as amended).  The HTML table parser raises [ValueError] when the
    document has no [<table>], when the table has no [<thead>], or when the
    [<thead>] has no row.  Otherwise it returns a table, whatever the number
    of data rows: when both passes find none, the returned table has an empty
    row list, and it is the fetcher that turns that table down with
    [ValueError("No rows")]. *)
Theorem parse_html_first_table_outcome (html : pystr) :
  let soup := BeautifulSoup html in
  (find "table" soup = None ->
   _parse_html_first_table html = Raise (ValueError (py "No <table> found")))
  /\ (forall table,
         find "table" soup = Some table -> find "thead" table = None ->
         _parse_html_first_table html = Raise (ValueError (py "No <thead> found")))
  /\ (forall table thead,
         find "table" soup = Some table -> find "thead" table = Some thead ->
         find_all ["tr"] thead = [] ->
         _parse_html_first_table html = Raise (ValueError (py "No header rows")))
  /\ (forall table thead,
         find "table" soup = Some table -> find "thead" table = Some thead ->
         find_all ["tr"] thead <> [] ->
         exists t,
           _parse_html_first_table html = Ok t
           /\ (_tbody_rows table = [] -> rows t = _all_tr_rows table)
           /\ (_tbody_rows table <> [] -> rows t = _tbody_rows table)
           /\ (_tbody_rows table = [] -> _all_tr_rows table = [] -> rows t = []))
  /\ (forall url t,
         http_text url = Ok html -> _parse_html_first_table html = Ok t -> rows t = [] ->
         _try_html url = Raise (ValueError (py "No rows"))).
Proof.
  intros soup. unfold _parse_html_first_table. fold soup.
  split; [|split; [|split; [|split]]].
  - intros ->. reflexivity.
  - intros table -> ->. reflexivity.
  - intros table thead -> -> ->. reflexivity.
  - intros table thead -> -> Hne.
    destruct (last (find_all ["tr"] thead)) as [hr|] eqn:Hl.
    + eexists. split; [reflexivity|]. cbn [rows].
      split; [intros ->; reflexivity|].
      split; [|intros -> ->; reflexivity].
      intros Hb. destruct (_tbody_rows table); [contradiction|reflexivity].
    + apply last_None in Hl. contradiction.
  - intros url t Hget Hparse Hrows. unfold _try_html, _get_html.
    rewrite Hget, bind_Ok.
    unfold _parse_html_first_table. fold soup. rewrite Hparse, bind_Ok, Hrows.
    reflexivity.
Qed.

(** *** Column resolver *)

Lemma candidates_from (target : pystr) (l : list pystr) (k i : nat) :
  i ∈ omap (fun '(i, f) => if str_in target f then Some i else None)
           (zip (seq k (length l)) l)
  <-> (k <= i)%nat /\ exists f, l !! (i - k)%nat = Some f /\ str_in target f = true.
Proof.
  revert k. induction l as [|f r IH]; intros k; cbn [length seq zip zip_with omap].
  - split; [intros H; inversion H|]. intros (_ & f & Hf & _). discriminate.
  - assert (Hrest :
        i ∈ omap (fun '(i, f) => if str_in target f then Some i else None)
                 (zip (seq (S k) (length r)) r)
        <-> (k <= i)%nat /\ i <> k
            /\ exists f', (f :: r) !! (i - k)%nat = Some f' /\ str_in target f' = true).
    { rewrite IH. split.
      - intros (Hle & f' & Hf' & Hin). split; [lia|]. split; [lia|].
        exists f'. split; [|exact Hin].
        replace (i - k)%nat with (S (i - S k)) by lia. exact Hf'.
      - intros (Hle & Hne & f' & Hf' & Hin). split; [lia|].
        exists f'. split; [|exact Hin].
        replace (i - k)%nat with (S (i - S k)) in Hf' by lia. exact Hf'. }
    cbn [omap list_omap]. destruct (str_in target f) eqn:Hf.
    + rewrite elem_of_cons, Hrest. split.
      * intros [-> | (Hle & _ & H)]; [|split; assumption].
        split; [lia|]. exists f. rewrite Nat.sub_diag. split; [reflexivity|exact Hf].
      * intros (Hle & H). destruct (decide (i = k)) as [->|Hne]; [left; reflexivity|].
        right. split; [exact Hle|]. split; assumption.
    + rewrite Hrest. split.
      * intros (Hle & _ & H). split; assumption.
      * intros (Hle & f' & Hf' & Hin). split; [exact Hle|].
        split; [|exists f'; split; assumption].
        intros ->. rewrite Nat.sub_diag in Hf'. simpl in Hf'. congruence.
Qed.

Lemma elem_of_candidates_of (fields : list pystr) (target : pystr) (i : nat) :
  i ∈ candidates_of fields target
  <-> exists f, fields !! i = Some f /\ str_in target f = true.
Proof.
  unfold candidates_of. rewrite candidates_from, Nat.sub_0_r.
  split; [intros (_ & H); exact H | intros H; split; [lia | exact H]].
Qed.

Lemma head_insert_desc (x : Z * nat) (l : list (Z * nat)) :
  head (insert_desc x l)
  = Some (match head l with
          | Some h => if tuple_ltb x h then h else x
          | None => x
          end).
Proof.
  destruct l as [|y r]; simpl; [reflexivity|].
  destruct (tuple_ltb x y); reflexivity.
Qed.

Lemma tuple_ltb_false (a b : Z * nat) :
  tuple_ltb a b = false <->
  fst b < fst a \/ (fst b = fst a /\ (snd b <= snd a)%nat).
Proof.
  unfold tuple_ltb. destruct a as [sa ia], b as [sb ib]; simpl.
  rewrite orb_false_iff, andb_false_iff, Z.ltb_ge, Z.eqb_neq, Nat.ltb_ge. lia.
Qed.

Lemma tuple_ltb_true (a b : Z * nat) :
  tuple_ltb a b = true <->
  fst a < fst b \/ (fst a = fst b /\ (snd a < snd b)%nat).
Proof.
  unfold tuple_ltb. destruct a as [sa ia], b as [sb ib]; simpl.
  rewrite orb_true_iff, andb_true_iff, Z.ltb_lt, Z.eqb_eq, Nat.ltb_lt. lia.
Qed.

Lemma sorted_reverse_head (l : list (Z * nat)) (m : Z * nat) :
  head (sorted_reverse l) = Some m ->
  m ∈ l /\ forall y, y ∈ l -> tuple_ltb m y = false.
Proof.
  unfold sorted_reverse. revert m. induction l as [|x r IH]; intros m; simpl.
  - discriminate.
  - rewrite head_insert_desc.
    destruct (head (foldr insert_desc [] r)) as [h|] eqn:Hh.
    + destruct (IH h eq_refl) as (Hin & Hmax).
      destruct (tuple_ltb x h) eqn:Hxh; intros [= <-].
      * split; [right; exact Hin|]. intros y [->|Hy]%elem_of_cons.
        -- apply tuple_ltb_false. apply tuple_ltb_true in Hxh. lia.
        -- apply Hmax. exact Hy.
      * split; [left|]. intros y [->|Hy]%elem_of_cons.
        -- apply tuple_ltb_false. lia.
        -- specialize (Hmax y Hy). apply tuple_ltb_false in Hmax, Hxh.
           apply tuple_ltb_false. lia.
    + intros [= <-]. split; [left|].
      assert (Hr : r = []).
      { destruct r as [|y r']; [reflexivity|]. simpl in Hh.
        rewrite head_insert_desc in Hh. discriminate. }
      subst r. intros y [->|Hy]%elem_of_cons; [|inversion Hy].
      apply tuple_ltb_false. lia.
Qed.

Lemma sorted_reverse_nonempty (l : list (Z * nat)) :
  l <> [] -> sorted_reverse l <> [].
Proof.
  destruct l as [|x r]; [contradiction|]. intros _ H.
  apply (f_equal head) in H. unfold sorted_reverse in H. simpl in H.
  rewrite head_insert_desc in H. discriminate.
Qed.

(** What [_pick_index] returns: the candidate that is greatest for
    (score, index). *)
Lemma pick_index_spec (fields : list pystr) (target : pystr) (score_fn : nat -> Z) :
  candidates_of fields target <> [] ->
  exists i,
    _pick_index fields target score_fn = Ok i
    /\ i ∈ candidates_of fields target
    /\ forall j, j ∈ candidates_of fields target ->
                 score_fn j < score_fn i \/ (score_fn j = score_fn i /\ (j <= i)%nat).
Proof.
  intros Hne. unfold _pick_index.
  destruct (candidates_of fields target) as [|c cs] eqn:Hc; [contradiction|].
  rewrite <- Hc.
  set (scored := map (fun i => (score_fn i, i)) (candidates_of fields target)).
  assert (Hs : sorted_reverse scored <> []).
  { apply sorted_reverse_nonempty. unfold scored. rewrite Hc. discriminate. }
  destruct (sorted_reverse scored) as [|[s i] rest] eqn:Hsr; [contradiction|].
  destruct (sorted_reverse_head scored (s, i)) as (Hin & Hmax).
  { rewrite Hsr. reflexivity. }
  apply list_elem_of_In, in_map_iff in Hin as (i' & [= <- <-] & Hi').
  apply list_elem_of_In in Hi'.
  exists i'. split; [reflexivity|]. split; [exact Hi'|].
  intros j Hj.
  assert (Hjs : (score_fn j, j) ∈ scored).
  { apply list_elem_of_In, in_map_iff. exists j.
    split; [reflexivity | apply list_elem_of_In; exact Hj]. }
  specialize (Hmax _ Hjs). apply tuple_ltb_false in Hmax. exact Hmax.
Qed.

Lemma pick_index_missing (fields : list pystr) (target : pystr) (score_fn : nat -> Z) :
  candidates_of fields target = [] ->
  _pick_index fields target score_fn = Raise (ValueError (py "Missing column: " ++ target)).
Proof. unfold _pick_index. intros ->. reflexivity. Qed.

(** C3 (as amended).  Among the headers that contain the target text, the
    resolver returns one with the highest score, and when several share
    that score it returns the LAST of them in header order; this holds for
    the short-sale and for the lending balance column alike. *)
Theorem twt93u_indices_ties_go_to_last (fields : list pystr) :
  candidates_of fields (py "今日餘額") <> [] ->
  candidates_of fields (py "當日餘額") <> [] ->
  exists short_idx borrow_idx,
    _twt93u_indices fields = Ok (_find_stock_code_col fields, short_idx, borrow_idx)
    /\ (exists f, fields !! short_idx = Some f /\ str_in (py "今日餘額") f = true)
    /\ (forall j f, fields !! j = Some f -> str_in (py "今日餘額") f = true ->
                    score_short fields j < score_short fields short_idx
                    \/ (score_short fields j = score_short fields short_idx
                        /\ (j <= short_idx)%nat))
    /\ (exists f, fields !! borrow_idx = Some f /\ str_in (py "當日餘額") f = true)
    /\ (forall j f, fields !! j = Some f -> str_in (py "當日餘額") f = true ->
                    score_borrow fields j < score_borrow fields borrow_idx
                    \/ (score_borrow fields j = score_borrow fields borrow_idx
                        /\ (j <= borrow_idx)%nat)).
Proof.
  intros Hs Hb.
  destruct (pick_index_spec fields (py "今日餘額") (score_short fields) Hs)
    as (si & Hsi & Hsc & Hsmax).
  destruct (pick_index_spec fields (py "當日餘額") (score_borrow fields) Hb)
    as (bi & Hbi & Hbc & Hbmax).
  exists si, bi. unfold _twt93u_indices. rewrite Hsi, bind_Ok, Hbi, bind_Ok.
  split; [reflexivity|].
  split; [apply elem_of_candidates_of; exact Hsc|].
  split.
  { intros j f Hj Hf. apply Hsmax. apply elem_of_candidates_of. exists f. auto. }
  split; [apply elem_of_candidates_of; exact Hbc|].
  intros j f Hj Hf. apply Hbmax. apply elem_of_candidates_of. exists f. auto.
Qed.

Lemma score_short_sum (fields : list pystr) (i : nat) :
  score_short fields i
  = (if (1 <=? i)%nat && header_has fields (py "現券") (i - 1) then 2 else 0)
    + (if (2 <=? i)%nat && header_has fields (py "現券") (i - 2) then 1 else 0)
    + (if (3 <=? i)%nat && header_has fields (py "現券") (i - 3) then 1 else 0).
Proof.
  unfold score_short. generalize (py "現券"). intros m. cbn [foldl].
  destruct ((1 <=? i)%nat && header_has fields m (i - 1));
    destruct ((2 <=? i)%nat && header_has fields m (i - 2));
    destruct ((3 <=? i)%nat && header_has fields m (i - 3)); reflexivity.
Qed.

Lemma marker_facts :
  str_in (py "今日餘額") (py "現券") = false
  /\ str_in (py "今日餘額") (py "今日餘額A") = true
  /\ str_in (py "今日餘額") (py "今日餘額B") = true
  /\ str_in (py "現券") (py "現券") = true
  /\ str_in (py "現券") (py "今日餘額A") = false.
Proof. vm_compute. repeat split. Qed.

(** C2 (as amended).  In a header row
    [..., "現券", "今日餘額A", "今日餘額B", ...] with no other header that
    contains "今日餘額", the short-sale balance column resolves to
    "今日餘額A", the header right after "現券" (score at least 2), not to
    "今日餘額B", which has "現券" two places back (score at most 2, and
    then "今日餘額A" scores 3). *)
Theorem short_balance_resolves_to_header_after_marker (pre post : list pystr) :
  (forall f, f ∈ pre ++ post -> str_in (py "今日餘額") f = false) ->
  let fields := pre ++ [py "現券"; py "今日餘額A"; py "今日餘額B"] ++ post in
  _pick_index fields (py "今日餘額") (score_short fields) = Ok (length pre + 1)%nat.
Proof.
  intros Hother fields.
  destruct marker_facts as (F1 & F2 & F3 & F4 & F5).
  set (n := length pre).
  assert (Hx : fields !! n = Some (py "現券")).
  { unfold fields. rewrite lookup_app_r by (unfold n; lia).
    replace (n - length pre)%nat with 0%nat by (unfold n; lia). reflexivity. }
  assert (Ha : fields !! (n + 1)%nat = Some (py "今日餘額A")).
  { unfold fields. rewrite lookup_app_r by (unfold n; lia).
    replace (n + 1 - length pre)%nat with 1%nat by (unfold n; lia). reflexivity. }
  assert (Hb : fields !! (n + 2)%nat = Some (py "今日餘額B")).
  { unfold fields. rewrite lookup_app_r by (unfold n; lia).
    replace (n + 2 - length pre)%nat with 2%nat by (unfold n; lia). reflexivity. }
  assert (Hcand : forall i, i ∈ candidates_of fields (py "今日餘額") ->
                            i = (n + 1)%nat \/ i = (n + 2)%nat).
  { intros i (f & Hf & Hin)%elem_of_candidates_of.
    destruct (decide (i < n)%nat) as [Hlt|Hge].
    { unfold fields in Hf. rewrite lookup_app_l in Hf by (unfold n in Hlt; lia).
      rewrite Hother in Hin; [discriminate|].
      apply elem_of_app. left. eapply list_elem_of_lookup_2. exact Hf. }
    destruct (decide (i = n)) as [->|Hn]; [rewrite Hx in Hf; congruence|].
    destruct (decide (i = n + 1)%nat) as [->|Hn1]; [left; reflexivity|].
    destruct (decide (i = n + 2)%nat) as [->|Hn2]; [right; reflexivity|].
    exfalso. unfold fields in Hf.
    rewrite lookup_app_r in Hf by (unfold n in *; lia).
    replace (i - length pre)%nat with (3 + (i - n - 3))%nat in Hf by (unfold n in *; lia).
    cbn [lookup list_lookup app Nat.add] in Hf.
    rewrite Hother in Hin; [discriminate|].
    apply elem_of_app. right. eapply list_elem_of_lookup_2.
    exact Hf. }
  assert (HhX : header_has fields (py "現券") n = true).
  { unfold header_has. rewrite Hx. exact F4. }
  assert (HhA : header_has fields (py "現券") (n + 1) = false).
  { unfold header_has. rewrite Ha. exact F5. }
  assert (HA : 2 <= score_short fields (n + 1)).
  { rewrite score_short_sum.
    replace (n + 1 - 1)%nat with n by lia.
    replace (1 <=? n + 1)%nat with true by (symmetry; apply Nat.leb_le; lia).
    rewrite HhX. cbn [andb].
    destruct (_ && _); destruct (_ && _); lia. }
  assert (HB : score_short fields (n + 2) <= 2
               /\ (score_short fields (n + 2) = 2 -> 3 <= score_short fields (n + 1))).
  { rewrite !score_short_sum.
    replace (n + 2 - 1)%nat with (n + 1)%nat by lia.
    replace (n + 1 - 1)%nat with n by lia.
    replace (n + 2 - 2)%nat with n by lia.
    replace (n + 2 - 3)%nat with (n + 1 - 2)%nat by lia.
    replace (3 <=? n + 2)%nat with (2 <=? n + 1)%nat
      by (destruct n as [|n']; [reflexivity|];
          transitivity true; [|symmetry]; apply Nat.leb_le; lia).
    replace (1 <=? n + 1)%nat with true by (symmetry; apply Nat.leb_le; lia).
    replace (1 <=? n + 2)%nat with true by (symmetry; apply Nat.leb_le; lia).
    replace (2 <=? n + 2)%nat with true by (symmetry; apply Nat.leb_le; lia).
    rewrite !HhX, !HhA. cbn [andb].
    destruct ((2 <=? n + 1)%nat && header_has fields (py "現券") (n + 1 - 2));
      destruct (_ && _); lia. }
  destruct (pick_index_spec fields (py "今日餘額") (score_short fields)) as (i & Hi & Hc & Hmax).
  { intros Hnil.
    assert (H1 : (n + 1)%nat ∈ candidates_of fields (py "今日餘額")).
    { apply elem_of_candidates_of. exists (py "今日餘額A"). split; assumption. }
    rewrite Hnil in H1. inversion H1. }
  rewrite Hi. f_equal. fold n.
  destruct (Hcand i Hc) as [->| ->]; [reflexivity|].
  exfalso.
  assert (H1 : (n + 1)%nat ∈ candidates_of fields (py "今日餘額")).
  { apply elem_of_candidates_of. exists (py "今日餘額A"). split; assumption. }
  specialize (Hmax _ H1). lia.
Qed.

(** *** Trading-calendar resolver *)

Lemma lookback_days_S (base : date) (n : nat) :
  lookback_days base (S n) = base :: lookback_days (base - 1) n.
Proof.
  unfold lookback_days. cbn [seq map]. f_equal; [lia|].
  rewrite <- seq_shift, map_map. apply map_ext. intros k. lia.
Qed.

Lemma lookback_days_descending (base : date) (n : nat) :
  StronglySorted (fun a b => b < a) (lookback_days base n)
  /\ Forall (fun d => d <= base) (lookback_days base n).
Proof.
  revert base. induction n as [|n IH]; intros base.
  - split; constructor.
  - rewrite lookback_days_S. destruct (IH (base - 1)) as (Hs & Hle). split.
    + constructor; [exact Hs|]. eapply Forall_impl; [exact Hle|].
      intros d Hd. simpl in Hd. lia.
    + constructor; [lia|]. eapply Forall_impl; [exact Hle|].
      intros d Hd. simpl in Hd. lia.
Qed.

Lemma StronglySorted_sublist {A} (R : A -> A -> Prop) (l1 l2 : list A) :
  l1 `sublist_of` l2 -> StronglySorted R l2 -> StronglySorted R l1.
Proof.
  induction 1 as [|x l1 l2 Hsub IH|x l1 l2 Hsub IH]; intros Hs.
  - constructor.
  - apply StronglySorted_cons in Hs as (Hx & Hs).
    apply StronglySorted_cons. split; [|apply IH; exact Hs].
    apply Forall_forall. intros y Hy. rewrite Forall_forall in Hx. apply Hx.
    eapply elem_of_sublist; eassumption.
  - apply StronglySorted_cons in Hs as (_ & Hs). apply IH. exact Hs.
Qed.

Lemma filter_take_prefix {A} (P : A -> Prop) `{!forall x, Decision (P x)}
      (l : list A) (m : nat) :
  filter P (take m l) = take (length (filter P (take m l))) (filter P l).
Proof.
  rewrite <- (take_drop m l) at 3. rewrite filter_app.
  rewrite take_app_length. reflexivity.
Qed.

Section Lookback.

Variable count : Z.
Hypothesis count_pos : 1 <= count.

Lemma lookback_run (n : nat) :
  forall cursor trading tables probed,
    Z.of_nat n < cursor ->
    Z.of_nat (length trading) < count ->
    let days := lookback_days cursor n in
    let hits := filter (fun d => is_trading_day d = true) days in
    let need := (Z.to_nat count - length trading)%nat in
    exists m tables',
      _lookback count n cursor trading tables probed
      = (probed ++ take m days,
         Ok (trading ++ filter (fun d => is_trading_day d = true) (take m days), tables'))
      /\ ((need <= length hits)%nat
          /\ length (filter (fun d => is_trading_day d = true) (take m days)) = need
          /\ (exists d, last (take m days) = Some d /\ is_trading_day d = true)
          \/ (length hits < need)%nat /\ take m days = days).
Proof.
  induction n as [|n IH]; intros cursor trading tables probed Hcur Hlen days hits need.
  - exists 0%nat, tables. subst days hits need. cbn [_lookback lookback_days seq map take firstn].
    rewrite filter_nil, !app_nil_r. split; [reflexivity|].
    right. split; [simpl; lia | reflexivity].
  - subst days hits need. rewrite lookback_days_S. cbn [_lookback].
    assert (Hsub : date_sub_day cursor = Ok (cursor - 1)).
    { unfold date_sub_day. replace (1 <? cursor) with true; [reflexivity|].
      symmetry. apply Z.ltb_lt. lia. }
    rewrite Hsub. cbv zeta.
    destruct (fetch_twt93u (_yyyymmdd cursor)) as [[table url]|e] eqn:Hf.
    + assert (Hok : is_trading_day cursor = true).
      { unfold is_trading_day. rewrite Hf. reflexivity. }
      rewrite (filter_cons_True _ cursor) by exact Hok.
      destruct (count <=? _) eqn:Hc.
      * apply Z.leb_le in Hc. rewrite length_app in Hc. simpl in Hc.
        exists 1%nat. eexists. cbn [take firstn]. rewrite (filter_cons_True _ cursor) by exact Hok.
        rewrite take_0, filter_nil. split; [reflexivity|]. left.
        split; [simpl; lia|]. split; [simpl; lia|].
        exists cursor. split; [reflexivity | exact Hok].
      * apply Z.leb_gt in Hc. rewrite length_app in Hc. simpl in Hc.
        destruct (IH (cursor - 1) (trading ++ [cursor])
                     (<[_yyyymmdd cursor := (table, url)]> tables) (probed ++ [cursor]))
          as (m & tables' & Hrun & Hcase).
        { lia. }
        { rewrite length_app. simpl. lia. }
        exists (S m), tables'. cbn [take firstn].
        rewrite (filter_cons_True _ cursor) by exact Hok.
        rewrite Hrun, <- !app_assoc. split; [reflexivity|].
        rewrite length_app in Hcase. simpl in Hcase. simpl.
        destruct Hcase as [(H1 & H2 & d & Hd & Hdok) | (H1 & H2)].
        -- left. split; [lia|]. split; [lia|].
           exists d. split; [|exact Hdok].
           rewrite last_cons, Hd. reflexivity.
        -- right. split; [lia|]. rewrite H2. reflexivity.
    + assert (Hok : ~ is_trading_day cursor = true).
      { unfold is_trading_day. rewrite Hf. discriminate. }
      rewrite (filter_cons_False _ cursor) by exact Hok.
      destruct (IH (cursor - 1) trading tables (probed ++ [cursor]))
        as (m & tables' & Hrun & Hcase).
      { lia. }
      { exact Hlen. }
      exists (S m), tables'. cbn [take firstn].
      rewrite (filter_cons_False _ cursor) by exact Hok.
      rewrite Hrun, <- !app_assoc. split; [reflexivity|].
      destruct Hcase as [(H1 & H2 & d & Hd & Hdok) | (H1 & H2)].
      * left. split; [exact H1|]. split; [exact H2|].
        exists d. split; [|exact Hdok].
        rewrite last_cons, Hd. reflexivity.
      * right. split; [exact H1|]. rewrite H2. reflexivity.
Qed.

End Lookback.

(** C6 (as amended).  For a base date, a target count N of at least 1 and
    a lookback window W that does not reach back past the first
    representable date: the resolver probes one calendar day at a time
    backward from the base date; the trading dates are the successful probes
    in descending date order; it stops at the N-th success (the last probed
    day is that success) or after W days; and it raises [RuntimeError]
    exactly when fewer than N of the W days succeed, having probed all W. *)
Theorem compute_trading_dates_walk (base : date) (count max_lookback_days : Z) :
  1 <= count -> 1 <= base -> max_lookback_days < base ->
  let days := lookback_days base (Z.to_nat max_lookback_days) in
  let hits := filter (fun d => is_trading_day d = true) days in
  let probed := fst (compute_trading_dates_probed base count max_lookback_days) in
  let outcome := compute_trading_dates base count max_lookback_days in
  probed `prefix_of` days
  /\ StronglySorted (fun a b => b < a) days
  /\ (count <= Z.of_nat (length hits) ->
      (exists tables, outcome = Ok (take (Z.to_nat count) hits, tables))
      /\ filter (fun d => is_trading_day d = true) probed = take (Z.to_nat count) hits
      /\ (exists d, last probed = Some d /\ is_trading_day d = true)
      /\ StronglySorted (fun a b => b < a) (take (Z.to_nat count) hits))
  /\ (Z.of_nat (length hits) < count ->
      probed = days
      /\ outcome = Raise (RuntimeError
                            (py "Only found " ++ str_int (Z.of_nat (length hits))
                                ++ py " trading days within lookback window"))).
Proof.
  intros Hcount Hbase Hwin days hits probed outcome.
  destruct (lookback_run count Hcount (Z.to_nat max_lookback_days) base [] ∅ [])
    as (m & tables' & Hrun & Hcase).
  { lia. }
  { simpl. lia. }
  fold days in Hrun, Hcase. fold hits in Hcase.
  cbn [length app] in Hrun, Hcase. rewrite Nat.sub_0_r in Hcase.
  assert (Hdesc : StronglySorted (fun a b => b < a) days).
  { apply lookback_days_descending. }
  assert (Hprobed : probed = take m days).
  { unfold probed, compute_trading_dates_probed. rewrite Hrun. reflexivity. }
  assert (Houtcome :
            outcome
            = let trading := filter (fun d => is_trading_day d = true) (take m days) in
              if Z.of_nat (length trading) <? count
              then Raise (RuntimeError
                            (py "Only found " ++ str_int (Z.of_nat (length trading))
                                ++ py " trading days within lookback window"))
              else Ok (trading, tables')).
  { unfold outcome, compute_trading_dates, compute_trading_dates_probed.
    rewrite Hrun. reflexivity. }
  split; [rewrite Hprobed; apply prefix_take|].
  split; [exact Hdesc|].
  split.
  - intros Hge.
    destruct Hcase as [(H1 & H2 & d & Hd & Hdok) | (H1 & _)]; [|lia].
    assert (Htr : filter (fun d => is_trading_day d = true) (take m days)
                  = take (Z.to_nat count) hits).
    { rewrite filter_take_prefix, H2. reflexivity. }
    split; [|split; [|split]].
    + exists tables'. rewrite Houtcome. cbv zeta. rewrite <- Htr.
      replace (_ <? count) with false; [reflexivity|].
      symmetry. apply Z.ltb_ge. lia.
    + rewrite Hprobed. exact Htr.
    + exists d. rewrite Hprobed. split; assumption.
    + eapply StronglySorted_sublist; [|exact Hdesc].
      transitivity hits; [apply sublist_take | apply sublist_filter].
  - intros Hlt.
    destruct Hcase as [(H1 & _) | (_ & H2)]; [lia|].
    split; [rewrite Hprobed; exact H2|].
    rewrite Houtcome, H2. cbv zeta. fold hits.
    replace (_ <? count) with true; [reflexivity|].
    symmetry. apply Z.ltb_lt. lia.
Qed.

(** *** Merger *)

Lemma extras_of_length (trading_dates : list date)
      (twt_maps : gmap pystr (gmap pystr (pystr * pystr))) (code : pystr) :
  length (extras_of trading_dates twt_maps code) = (2 * length trading_dates)%nat.
Proof.
  unfold extras_of. induction trading_dates as [|d r IH]; [reflexivity|].
  cbn [flat_map length]. rewrite length_app, IH.
  destruct (default ∅ (twt_maps !! _yyyymmdd d) !! code) as [[s b]|]; simpl; lia.
Qed.

Lemma extras_of_lookup (trading_dates : list date)
      (twt_maps : gmap pystr (gmap pystr (pystr * pystr))) (code : pystr)
      (k : nat) (d : date) :
  trading_dates !! k = Some d ->
  let pair := default ([], []) (balance_entry twt_maps d code) in
  extras_of trading_dates twt_maps code !! (2 * k)%nat = Some (or_sentinel (fst pair))
  /\ extras_of trading_dates twt_maps code !! (2 * k + 1)%nat = Some (or_sentinel (snd pair)).
Proof.
  unfold extras_of, balance_entry. revert k.
  induction trading_dates as [|d0 r IH]; intros k Hk; [discriminate|].
  cbn [flat_map].
  destruct k as [|k].
  - injection Hk as ->.
    destruct (default ∅ (twt_maps !! _yyyymmdd d) !! code) as [[s b]|];
      split; reflexivity.
  - cbn [lookup list_lookup] in Hk. destruct (IH k Hk) as (H1 & H2).
    replace (2 * S k)%nat with (2 + 2 * k)%nat by lia.
    replace (2 + 2 * k + 1)%nat with (2 + (2 * k + 1))%nat by lia.
    destruct (default ∅ (twt_maps !! _yyyymmdd d0) !! code) as [[s b]|];
      split; first [exact H1 | exact H2].
Qed.

Lemma combined_rows_rows (code_idx : nat) (trading_dates : list date)
    (twt_maps : gmap pystr (gmap pystr (pystr * pystr))) (bfi_rows : list (list pystr))
    (i : nat) (row : list pystr) :
  bfi_rows !! i = Some row ->
  exists extras,
    combined_rows code_idx trading_dates twt_maps bfi_rows !! i = Some (row ++ extras)
    /\ length extras = (2 * length trading_dates)%nat
    /\ forall k d,
        trading_dates !! k = Some d ->
        let pair :=
          default ([], []) (balance_entry twt_maps d (stripped_cell row code_idx)) in
        extras !! (2 * k)%nat = Some (or_sentinel (fst pair))
        /\ extras !! (2 * k + 1)%nat = Some (or_sentinel (snd pair)).
Proof.
  intros Hrow. unfold combined_rows.
  exists (extras_of trading_dates twt_maps (stripped_cell row code_idx)).
  split.
  { change (map ?f ?l) with (f <$> l). rewrite list_lookup_fmap, Hrow. reflexivity. }
  split; [apply extras_of_length|].
  intros k d Hk. apply extras_of_lookup. exact Hk.
Qed.

(** C7.  The merged table has the rows of the base table, in the same
    order, none dropped or added; each merged row starts with the cells of
    its base row unchanged, followed by exactly 2 x N cells: for the k-th
    trading date, in the order of the trading-date list, the short balance
    and then the borrow balance. *)
Theorem combined_rows_frame (code_idx : nat) (trading_dates : list date)
    (twt_maps : gmap pystr (gmap pystr (pystr * pystr))) (bfi_rows : list (list pystr)) :
  let merged := combined_rows code_idx trading_dates twt_maps bfi_rows in
  length merged = length bfi_rows
  /\ (forall i, merged !! i = None <-> bfi_rows !! i = None)
  /\ forall i row,
      bfi_rows !! i = Some row ->
      exists extras,
        merged !! i = Some (row ++ extras)
        /\ take (length row) (row ++ extras) = row
        /\ length extras = (2 * length trading_dates)%nat
        /\ forall k d,
            trading_dates !! k = Some d ->
            let pair :=
              default ([], []) (balance_entry twt_maps d (stripped_cell row code_idx)) in
            extras !! (2 * k)%nat = Some (or_sentinel (fst pair))
            /\ extras !! (2 * k + 1)%nat = Some (or_sentinel (snd pair)).
Proof.
  intros merged. subst merged.
  split; [apply length_map|].
  split.
  { intros i. unfold combined_rows. rewrite !lookup_ge_None, length_map. reflexivity. }
  intros i row Hrow.
  destruct (combined_rows_rows code_idx trading_dates twt_maps bfi_rows i row Hrow)
    as (extras & Hm & Hlen & Hcells).
  exists extras.
  split; [exact Hm|].
  split; [apply take_app_length|].
  split; [exact Hlen | exact Hcells].
Qed.

Lemma sentinel_nonempty : sentinel <> [].
Proof. vm_compute. discriminate. Qed.

Lemma or_sentinel_is_sentinel (s : pystr) :
  or_sentinel s = sentinel <-> s = [] \/ s = sentinel.
Proof.
  destruct s as [|c r]; simpl.
  - split; [left; reflexivity | reflexivity].
  - split; [right; assumption | intros [H|H]; [discriminate | assumption]].
Qed.

(** C1 (as amended).  In the merged output the appended cell of a date is
    the em-dash placeholder when the base row's code has no entry in that
    date's lending map, and also when the entry is there but its value is
    the empty string: for a code present with value (s, b) the two cells are
    s and b when these are non-empty and the placeholder otherwise; for an
    absent code both cells are the placeholder, never the empty string. *)
Theorem sentinel_marks_absent_or_empty (code_idx : nat) (trading_dates : list date)
    (twt_maps : gmap pystr (gmap pystr (pystr * pystr))) (bfi_rows : list (list pystr))
    (i k : nat) (row : list pystr) (d : date) :
  bfi_rows !! i = Some row ->
  trading_dates !! k = Some d ->
  let entry := balance_entry twt_maps d (stripped_cell row code_idx) in
  exists merged_row,
    combined_rows code_idx trading_dates twt_maps bfi_rows !! i = Some merged_row
    /\ let short_cell := merged_row !! (length row + 2 * k)%nat in
       let borrow_cell := merged_row !! (length row + 2 * k + 1)%nat in
       (forall s b, entry = Some (s, b) ->
                    short_cell = Some (if decide (s = []) then sentinel else s)
                    /\ borrow_cell = Some (if decide (b = []) then sentinel else b))
       /\ (entry = None -> short_cell = Some sentinel /\ borrow_cell = Some sentinel)
       /\ (short_cell = Some sentinel <->
           entry = None \/ exists s b, entry = Some (s, b) /\ (s = [] \/ s = sentinel))
       /\ short_cell <> Some [] /\ borrow_cell <> Some [].
Proof.
  intros Hrow Hk entry.
  destruct (combined_rows_rows code_idx trading_dates twt_maps bfi_rows i row Hrow)
    as (extras & Hm & Hlen & Hcells).
  destruct (Hcells k d Hk) as (Hs & Hb). fold entry in Hs, Hb.
  exists (row ++ extras). split; [exact Hm|].
  cbv zeta.
  rewrite <- Nat.add_assoc.
  rewrite !lookup_app_r by lia.
  replace (length row + 2 * k - length row)%nat with (2 * k)%nat by lia.
  replace (length row + (2 * k + 1) - length row)%nat with (2 * k + 1)%nat by lia.
  rewrite Hs, Hb.
  assert (Hor : forall s, or_sentinel s = if decide (s = []) then sentinel else s).
  { intros [|c r]; reflexivity. }
  split; [|split; [|split; [|split]]].
  - intros s b ->. simpl. rewrite !Hor. split; reflexivity.
  - intros ->. split; reflexivity.
  - split.
    + intros [= Hsen]. apply or_sentinel_is_sentinel in Hsen.
      destruct entry as [[s b]|]; [right|left; reflexivity].
      exists s, b. split; [reflexivity | exact Hsen].
    + intros [-> | (s & b & -> & Hsb)]; [reflexivity|].
      simpl. f_equal. apply or_sentinel_is_sentinel. exact Hsb.
  - intros [= H]. destruct (fst (default ([], []) entry)); [|discriminate].
    simpl in H. apply sentinel_nonempty. exact H.
  - intros [= H]. destruct (snd (default ([], []) entry)); [|discriminate].
    simpl in H. apply sentinel_nonempty. exact H.
Qed.

Lemma date_map_fold (code_idx short_idx borrow_idx : nat) (table_rows : list (list pystr)) :
  forall (acc : gmap pystr (pystr * pystr)) (code : pystr),
    foldl (fun (date_map : gmap pystr (pystr * pystr)) (row : list pystr) =>
             match row !! code_idx with
             | None => date_map
             | Some c =>
               let code := strip c in
               match code with
               | [] => date_map
               | _ =>
                 let short_val := stripped_cell row short_idx in
                 let borrow_val := stripped_cell row borrow_idx in
                 <[code := (short_val, borrow_val)]> date_map
               end
             end) acc table_rows !! code
    = match code with
      | [] => acc !! code
      | _ =>
        match last (filter (fun row => has_code code_idx code row = true) table_rows) with
        | Some row => Some (stripped_cell row short_idx, stripped_cell row borrow_idx)
        | None => acc !! code
        end
      end.
Proof.
  induction table_rows as [|row r IH]; intros acc code.
  - simpl. destruct code; reflexivity.
  - cbn [foldl]. rewrite IH. clear IH.
    unfold has_code at 2.
    destruct (row !! code_idx) as [c|] eqn:Hc.
    + cbv zeta. destruct (strip c) as [|a s] eqn:Hs.
      * destruct code as [|x code']; [reflexivity|].
        rewrite filter_cons_False; [reflexivity|].
        unfold has_code. rewrite Hc, Hs. rewrite bool_decide_eq_true. discriminate.
      * destruct code as [|x code'].
        -- apply lookup_insert_ne. discriminate.
        -- destruct (decide (a :: s = x :: code')) as [Heq|Hne].
           ++ rewrite filter_cons_True
                by (unfold has_code; rewrite Hc, Hs; apply bool_decide_eq_true; exact Heq).
              rewrite last_cons.
              destruct (last (filter _ r)); [reflexivity|].
              rewrite Heq. apply lookup_insert_eq.
           ++ rewrite filter_cons_False
                by (unfold has_code; rewrite Hc, Hs, bool_decide_eq_true; exact Hne).
              destruct (last (filter _ r)); [reflexivity|].
              apply lookup_insert_ne. exact Hne.
    + destruct code as [|x code']; [reflexivity|].
      rewrite filter_cons_False; [reflexivity|].
      unfold has_code. rewrite Hc. discriminate.
Qed.

(** C10.  When several rows of a lending table carry the same non-empty
    code, the date's map keeps the pair of the last such row in table order;
    a row whose code cell is out of range or empty adds no entry; a balance
    cell beyond the end of its row counts as the empty string. *)
Theorem date_map_last_row_wins (code_idx short_idx borrow_idx : nat)
    (table_rows : list (list pystr)) :
  let date_map := _date_map code_idx short_idx borrow_idx table_rows in
  date_map !! [] = None
  /\ (forall code,
         code <> [] ->
         date_map !! code
         = match last (filter (fun row => has_code code_idx code row = true) table_rows) with
           | Some row => Some (stripped_cell row short_idx, stripped_cell row borrow_idx)
           | None => None
           end)
  /\ (forall code p,
         date_map !! code = Some p ->
         code <> []
         /\ exists row c,
             row ∈ table_rows /\ row !! code_idx = Some c /\ strip c = code
             /\ p = (stripped_cell row short_idx, stripped_cell row borrow_idx))
  /\ (forall row i, (length row <= i)%nat -> stripped_cell row i = []).
Proof.
  intros date_map. subst date_map. unfold _date_map.
  split; [|split; [|split]].
  - rewrite date_map_fold. apply lookup_empty.
  - intros code Hne. rewrite date_map_fold.
    destruct code; [contradiction|].
    destruct (last _); [reflexivity | apply lookup_empty].
  - intros code p. rewrite date_map_fold.
    destruct code as [|x code']; [rewrite lookup_empty; discriminate|].
    destruct (last _) as [row|] eqn:Hl; [|rewrite lookup_empty; discriminate].
    intros [= <-]. split; [discriminate|].
    apply last_Some_elem_of in Hl. apply list_elem_of_filter in Hl as (Hhas & Hin).
    unfold has_code in Hhas. destruct (row !! code_idx) as [c|] eqn:Hc; [|discriminate].
    apply bool_decide_eq_true in Hhas.
    exists row, c. split; [exact Hin|]. split; [exact Hc|]. split; [exact Hhas|reflexivity].
  - intros row i Hlen. unfold stripped_cell.
    rewrite (proj2 (lookup_ge_None row i)) by exact Hlen. reflexivity.
Qed.

(** ** Further properties of the script *)

(** *** Substring search *)

Lemma startswith_spec (p s : pystr) :
  startswith p s = true <-> exists r, s = p ++ r.
Proof.
  revert s. induction p as [|a p IH]; intros s; simpl.
  - split; [intros _; exists s; reflexivity | reflexivity].
  - destruct s as [|b s].
    + split; [discriminate | intros (r & Hr); discriminate].
    + rewrite andb_true_iff, N.eqb_eq, IH. split.
      * intros (-> & r & ->). exists r. reflexivity.
      * intros (r & [= -> ->]). split; [reflexivity | exists r; reflexivity].
Qed.

Lemma str_in_spec (needle hay : pystr) :
  str_in needle hay = true <-> exists l r, hay = l ++ needle ++ r.
Proof.
  induction hay as [|c hay IH]; cbn [str_in]; rewrite orb_true_iff, startswith_spec.
  - split.
    + intros [(r & Hr) | H]; [|discriminate]. exists [], r. exact Hr.
    + intros (l & r & H). left.
      destruct l; [exists r; exact H | discriminate].
  - rewrite IH. split.
    + intros [(r & Hr) | (l & r & ->)].
      * exists [], r. exact Hr.
      * exists (c :: l), r. reflexivity.
    + intros (l & r & H). destruct l as [|c' l].
      * left. exists r. exact H.
      * right. injection H as -> ->. exists l, r. reflexivity.
Qed.

Lemma str_in_suffix (p q hay : pystr) :
  str_in (p ++ q) hay = true -> str_in q hay = true.
Proof.
  rewrite !str_in_spec. intros (l & r & ->).
  exists (l ++ p), r. rewrite <- !app_assoc. reflexivity.
Qed.

Lemma re_search_code_single (f : pystr) :
  re_search_code f = str_in (py "代號") f.
Proof.
  unfold re_search_code.
  destruct (str_in (py "代號") f) eqn:H; [reflexivity|].
  assert (H1 : str_in (py "證券代號") f = false).
  { destruct (str_in (py "證券代號") f) eqn:H1; [|reflexivity].
    change (py "證券代號") with (py "證券" ++ py "代號") in H1.
    apply str_in_suffix in H1. congruence. }
  assert (H2 : str_in (py "股票代號") f = false).
  { destruct (str_in (py "股票代號") f) eqn:H2; [|reflexivity].
    change (py "股票代號") with (py "股票" ++ py "代號") in H2.
    apply str_in_suffix in H2. congruence. }
  rewrite H1, H2. reflexivity.
Qed.

(** *** Column resolver *)

Lemma find_stock_code_col_spec (fields : list pystr) :
  let i := _find_stock_code_col fields in
  (Forall (fun f => str_in (py "代號") f = false) fields /\ i = 0%nat)
  \/ (exists f,
         fields !! i = Some f /\ str_in (py "代號") f = true
         /\ forall j g, (j < i)%nat -> fields !! j = Some g -> str_in (py "代號") g = false).
Proof.
  intros i. subst i. unfold _find_stock_code_col.
  destruct (list_find _ fields) as [[i f]|] eqn:Hfind.
  - right. apply list_find_Some in Hfind as (Hi & Hf & Hmin).
    exists f. rewrite <- re_search_code_single. split; [exact Hi|]. split; [exact Hf|].
    intros j g Hj Hg. rewrite <- re_search_code_single.
    specialize (Hmin j g Hg Hj). destruct (re_search_code g); [contradiction|reflexivity].
  - left. split; [|reflexivity]. apply list_find_None in Hfind.
    eapply Forall_impl; [exact Hfind|]. intros g Hg. simpl in Hg.
    rewrite <- re_search_code_single. destruct (re_search_code g); [contradiction|reflexivity].
Qed.

(** X1.  The stock-code column is the first header that contains "代號"
    (the two longer alternatives of the pattern add nothing); when no header
    contains it the column defaults to 0.  The function never fails. *)
Theorem find_stock_code_col_first_match (fields : list pystr) :
  let i := _find_stock_code_col fields in
  (Forall (fun f => str_in (py "代號") f = false) fields /\ i = 0%nat)
  \/ (exists f,
         fields !! i = Some f /\ str_in (py "代號") f = true
         /\ forall j g, (j < i)%nat -> fields !! j = Some g -> str_in (py "代號") g = false).
Proof. apply find_stock_code_col_spec. Qed.

Lemma candidates_of_nil (fields : list pystr) (target : pystr) :
  candidates_of fields target = [] <-> Forall (fun f => str_in target f = false) fields.
Proof.
  split.
  - intros Hnil. apply Forall_forall. intros f Hf.
    apply list_elem_of_lookup in Hf as (i & Hi).
    destruct (str_in target f) eqn:Hin; [|reflexivity].
    assert (H : i ∈ candidates_of fields target).
    { apply elem_of_candidates_of. exists f. split; assumption. }
    rewrite Hnil in H. inversion H.
  - intros Hall. destruct (candidates_of fields target) as [|i r] eqn:Hc; [reflexivity|].
    assert (H : i ∈ candidates_of fields target) by (rewrite Hc; left).
    apply elem_of_candidates_of in H as (f & Hf & Hin).
    rewrite Forall_forall in Hall. rewrite Hall in Hin; [discriminate|].
    eapply list_elem_of_lookup_2. exact Hf.
Qed.

(** X2.  The lending-table column resolution fails exactly when a target
    column is missing: no header with "今日餘額" raises [ValueError] for that
    column (whatever else is missing), otherwise no header with "當日餘額"
    raises [ValueError] for the latter; when both exist it returns, and the
    three indices are positions of the header row. *)
Theorem twt93u_indices_outcome (fields : list pystr) :
  (Forall (fun f => str_in (py "今日餘額") f = false) fields ->
   _twt93u_indices fields = Raise (ValueError (py "Missing column: " ++ py "今日餘額")))
  /\ (~ Forall (fun f => str_in (py "今日餘額") f = false) fields ->
      Forall (fun f => str_in (py "當日餘額") f = false) fields ->
      _twt93u_indices fields = Raise (ValueError (py "Missing column: " ++ py "當日餘額")))
  /\ (~ Forall (fun f => str_in (py "今日餘額") f = false) fields ->
      ~ Forall (fun f => str_in (py "當日餘額") f = false) fields ->
      exists code_idx short_idx borrow_idx,
        _twt93u_indices fields = Ok (code_idx, short_idx, borrow_idx)
        /\ (code_idx < length fields)%nat
        /\ (short_idx < length fields)%nat
        /\ (borrow_idx < length fields)%nat).
Proof.
  unfold _twt93u_indices. split; [|split].
  - intros H. apply candidates_of_nil in H.
    rewrite (pick_index_missing fields (py "今日餘額") _ H). reflexivity.
  - intros Hs Hb. rewrite <- candidates_of_nil in Hs. apply candidates_of_nil in Hb.
    destruct (pick_index_spec fields (py "今日餘額") (score_short fields) Hs) as (si & -> & _).
    rewrite bind_Ok, (pick_index_missing fields (py "當日餘額") _ Hb). reflexivity.
  - intros Hs Hb. rewrite <- candidates_of_nil in Hs, Hb.
    destruct (pick_index_spec fields (py "今日餘額") (score_short fields) Hs)
      as (si & -> & Hsi & _).
    destruct (pick_index_spec fields (py "當日餘額") (score_borrow fields) Hb)
      as (bi & -> & Hbi & _).
    exists (_find_stock_code_col fields), si, bi. split; [reflexivity|].
    apply elem_of_candidates_of in Hsi as (fs & Hfs & _).
    apply elem_of_candidates_of in Hbi as (fb & Hfb & _).
    apply lookup_lt_Some in Hfs, Hfb. split; [|split; assumption].
    destruct (find_stock_code_col_spec fields) as [(_ & ->) | (f & Hf & _)].
    + lia.
    + apply lookup_lt_Some in Hf. exact Hf.
Qed.

(** X3.  The heuristic scores are bounded: the short-sale score lies between
    0 and 4 and the lending score between 0 and 3; the first column cannot
    score as a short-sale column, and the last column cannot earn the two
    points of the lending score that come from its successor. *)
Theorem score_bounds (fields : list pystr) (i : nat) :
  0 <= score_short fields i <= 4
  /\ 0 <= score_borrow fields i <= 3
  /\ score_short fields 0 = 0
  /\ ((length fields <= i + 1)%nat -> score_borrow fields i <= 1).
Proof.
  split; [|split; [|split]].
  - rewrite score_short_sum.
    destruct (_ && _); destruct (_ && _); destruct (_ && _); lia.
  - unfold score_borrow. destruct (_ && _); destruct (_ && _); lia.
  - rewrite score_short_sum. reflexivity.
  - intros Hlast. unfold score_borrow.
    replace (i + 1 <? length fields)%nat with false
      by (symmetry; apply Nat.ltb_ge; lia).
    cbn [andb]. destruct (_ && _); lia.
Qed.

(** *** HTML table parser *)

Lemma concat_trimmed (l : list pystr) :
  Forall (fun t => t <> [] /\ trimmed t) l -> trimmed (concat l).
Proof.
  induction 1 as [|t r (Hne & Hh & Hl) Hr IH]; cbn [concat].
  - split; intros c H; discriminate.
  - destruct IH as (IHh & IHl). split; intros c.
    + destruct t as [|a t]; [contradiction|]. simpl. apply Hh.
    + rewrite last_app. destruct (last (concat r)) as [y|] eqn:Hy.
      * intros [= <-]. apply IHl. reflexivity.
      * apply Hl.
Qed.

Lemma strip_trimmed (s : pystr) : trimmed (strip s).
Proof. split; intros c; [apply strip_head | apply strip_last]. Qed.

Lemma get_text_strip_trimmed (n : node) : trimmed (get_text_strip n).
Proof.
  unfold get_text_strip. apply concat_trimmed.
  apply Forall_forall. intros t Ht.
  apply list_elem_of_omap in Ht as (d & _ & Hd).
  destruct d as [name cs|s|s]; try discriminate.
  destruct (strip s) as [|a u] eqn:Hs; [discriminate|].
  injection Hd as <-. split; [discriminate|]. rewrite <- Hs. apply strip_trimmed.
Qed.

Lemma map_get_text_strip_trimmed (cells : list node) :
  Forall trimmed (map get_text_strip cells).
Proof.
  apply Forall_forall. intros t Ht.
  apply list_elem_of_In, in_map_iff in Ht as (n & <- & _).
  apply get_text_strip_trimmed.
Qed.

Lemma html_rows_trimmed (f : node -> list node) (trs : list node) :
  Forall (fun row => row <> [] /\ Forall trimmed row)
         (filter (fun cells => cells <> []) (map (fun tr => map get_text_strip (f tr)) trs)).
Proof.
  apply Forall_forall. intros row Hrow.
  apply list_elem_of_filter in Hrow as (Hne & Hin). split; [exact Hne|].
  apply list_elem_of_In, in_map_iff in Hin as (tr & <- & _).
  apply map_get_text_strip_trimmed.
Qed.

Lemma parse_html_trimmed (html : pystr) (t : Table) :
  _parse_html_first_table html = Ok t ->
  Forall trimmed (fields t)
  /\ Forall (fun row => row <> [] /\ Forall trimmed row) (rows t).
Proof.
  unfold _parse_html_first_table.
  destruct (find "table" (BeautifulSoup html)) as [table|]; [|discriminate].
  destruct (find "thead" table) as [thead|]; [|discriminate].
  destruct (last (find_all ["tr"] thead)) as [hr|]; [|discriminate].
  intros [= <-]. cbn [fields rows]. split; [apply map_get_text_strip_trimmed|].
  destruct (_tbody_rows table) as [|r0 rs] eqn:Hb.
  - apply html_rows_trimmed.
  - rewrite <- Hb. apply html_rows_trimmed.
Qed.

(** X4.  Whatever the page, a table returned by the HTML parser has only
    trimmed texts (no leading or trailing whitespace) as header fields and
    cells, and none of its rows is empty. *)
Theorem parse_html_first_table_cells_trimmed (html : pystr) (t : Table) :
  _parse_html_first_table html = Ok t ->
  Forall trimmed (fields t)
  /\ Forall (fun row => row <> [] /\ Forall trimmed row) (rows t).
Proof. apply parse_html_trimmed. Qed.

(** X5.  When the [<thead>] of the first table holds several rows, the
    header fields are the cell texts of its last row; the rows above it are
    ignored. *)
Theorem parse_html_first_table_last_header_row (html : pystr)
    (table thead hr : node) (hrs : list node) :
  find "table" (BeautifulSoup html) = Some table ->
  find "thead" table = Some thead ->
  find_all ["tr"] thead = hrs ++ [hr] ->
  exists t,
    _parse_html_first_table html = Ok t
    /\ fields t = map get_text_strip (find_all ["th"; "td"] hr).
Proof.
  intros Ht Hh Hrows. unfold _parse_html_first_table.
  rewrite Ht, Hh, Hrows, last_snoc. eexists. split; reflexivity.
Qed.

(** *** Fallback fetcher *)

Lemma bind_Raise {A B} (e : exn) (k : A -> result B) : (Raise e ≫= k) = Raise e.
Proof. reflexivity. Qed.

Lemma try_json_Ok (url : pystr) (t : Table) (u : pystr) :
  _try_json url = Ok (t, u) ->
  u = url /\ rows t <> []
  /\ exists o,
      http_json url = Ok (JObj o)
      /\ _parse_twse_json_table (JObj o) = Ok t
      /\ str_in (py "OK")
                (upper (py_str (default (JStr (py "OK")) (dict_lookup (py "stat") o)))) = true.
Proof.
  unfold _try_json, _get_json.
  destruct (http_json url) as [payload|e] eqn:Hget; [|rewrite bind_Raise; discriminate].
  rewrite bind_Ok.
  destruct payload as [| | | | | |o];
    try (unfold json_get; rewrite bind_Raise; discriminate).
  unfold json_get. rewrite !bind_Ok.
  destruct (str_in (py "OK") (upper (py_str (default (JStr (py "OK"))
                                                     (dict_lookup (py "stat") o))))) eqn:Hstat.
  - cbn [negb].
    destruct (_parse_twse_json_table (JObj o)) as [t'|e] eqn:Hp;
      [|rewrite bind_Raise; discriminate].
    rewrite bind_Ok. destruct (rows t') as [|r0 rs] eqn:Hr; [discriminate|].
    intros [= <- <-]. split; [reflexivity|]. split; [rewrite Hr; discriminate|].
    exists o. split; [reflexivity|]. split; [exact Hp | exact Hstat].
  - cbn [negb]. discriminate.
Qed.

(** X6.  A JSON candidate that is accepted returns the URL it was asked
    for and a table with at least one row, parsed from an object payload
    whose status (or the default "OK") contains OK once upper-cased. *)
Theorem try_json_accepts_only_nonempty_tables (url : pystr) (t : Table) (u : pystr) :
  _try_json url = Ok (t, u) ->
  u = url /\ rows t <> []
  /\ exists o,
      http_json url = Ok (JObj o)
      /\ _parse_twse_json_table (JObj o) = Ok t
      /\ str_in (py "OK")
                (upper (py_str (default (JStr (py "OK")) (dict_lookup (py "stat") o)))) = true.
Proof. apply try_json_Ok. Qed.

(** X7.  A JSON candidate is turned down with the transport's own error when
    the request fails, with the [AttributeError] that names the payload's
    type ("'list' object has no attribute 'get'" for an array) when the
    decoded payload is not an object, and with [ValueError("No rows")] when
    the payload passes the status test and parses to a table without rows. *)
Theorem try_json_rejections (url : pystr) :
  (forall e, http_json url = Raise e -> _try_json url = Raise e)
  /\ (forall payload,
         http_json url = Ok payload ->
         (forall o, payload <> JObj o) ->
         _try_json url
         = Raise (AttributeError
                    (py "'" ++ type_name payload ++ py "' object has no attribute 'get'")))
  /\ (forall o t,
         http_json url = Ok (JObj o) ->
         str_in (py "OK")
                (upper (py_str (default (JStr (py "OK")) (dict_lookup (py "stat") o)))) = true ->
         _parse_twse_json_table (JObj o) = Ok t ->
         rows t = [] ->
         _try_json url = Raise (ValueError (py "No rows"))).
Proof.
  unfold _try_json, _get_json. split; [|split].
  - intros e ->. reflexivity.
  - intros payload -> Hno. rewrite bind_Ok.
    destruct payload as [| | | | | |o]; try reflexivity.
    contradiction (Hno o). reflexivity.
  - intros o t -> Hstat Hp Hr. rewrite bind_Ok. unfold json_get.
    rewrite !bind_Ok, Hstat. cbn [negb]. rewrite Hp, bind_Ok, Hr. reflexivity.
Qed.

Lemma json_loop_inl (candidates : list pystr) (last_err : option exn) (r : Table * pystr) :
  _json_loop candidates last_err = inl r <->
  exists pre url post,
    candidates = pre ++ url :: post
    /\ Forall (fun u => is_ok (_try_json u) = false) pre
    /\ _try_json url = Ok r.
Proof.
  revert last_err. induction candidates as [|url rest IH]; intros last_err; cbn [_json_loop].
  - split; [discriminate|]. intros (pre & u & post & H & _). destruct pre; discriminate.
  - destruct (_try_json url) as [r'|e] eqn:Htry.
    + split.
      * intros [= <-]. exists [], url, rest. split; [reflexivity|]. split; [constructor|exact Htry].
      * intros (pre & u & post & Hc & Hpre & Hu). destruct pre as [|p pre].
        -- injection Hc as <- <-. congruence.
        -- injection Hc as <- ->. inversion Hpre as [|? ? Hp _]; subst.
           rewrite Htry in Hp. discriminate.
    + rewrite IH. split.
      * intros (pre & u & post & -> & Hpre & Hu). exists (url :: pre), u, post.
        split; [reflexivity|]. split; [|exact Hu].
        constructor; [rewrite Htry; reflexivity | exact Hpre].
      * intros (pre & u & post & Hc & Hpre & Hu). destruct pre as [|p pre].
        -- injection Hc as <- <-. congruence.
        -- injection Hc as <- ->. inversion Hpre; subst.
           exists pre, u, post. split; [reflexivity|]. split; assumption.
Qed.

Lemma json_loop_inr (candidates : list pystr) (last_err last_err' : option exn) :
  _json_loop candidates last_err = inr last_err' ->
  Forall (fun u => is_ok (_try_json u) = false) candidates
  /\ (candidates <> [] -> exists e, last_err' = Some e).
Proof.
  revert last_err. induction candidates as [|url rest IH]; intros last_err; cbn [_json_loop].
  - intros _. split; [constructor | intros H; contradiction].
  - destruct (_try_json url) as [r'|e] eqn:Htry; [discriminate|].
    intros H. destruct (IH _ H) as (Hall & Hlast). split.
    + constructor; [rewrite Htry; reflexivity | exact Hall].
    + intros _. destruct rest as [|u rest'].
      * cbn [_json_loop] in H. injection H as <-. exists e. reflexivity.
      * apply Hlast. discriminate.
Qed.

Lemma try_html_Ok (url : pystr) (t : Table) (u : pystr) :
  _try_html url = Ok (t, u) -> u = url /\ rows t <> [].
Proof.
  unfold _try_html. destruct (_get_html url) as [html|e]; [|rewrite bind_Raise; discriminate].
  rewrite bind_Ok.
  destruct (_parse_html_first_table html) as [t'|e]; [|rewrite bind_Raise; discriminate].
  rewrite bind_Ok. destruct (rows t') as [|r0 rs] eqn:Hr; [discriminate|].
  intros [= <- <-]. split; [reflexivity | rewrite Hr; discriminate].
Qed.

(** The shape both fetchers share. *)
Lemma fetch_shape (candidates : list pystr) (html_url : pystr) (msg : exn -> pystr)
      (r : Table * pystr) :
  match _json_loop candidates None with
  | inl r => Ok r
  | inr last_err =>
    try_except (_try_html html_url)
               (fun e => Raise (RuntimeError (msg (last_err_or last_err e))))
  end = Ok r ->
  rows (fst r) <> [] /\ snd r ∈ candidates ++ [html_url]
  /\ ((exists pre url post,
          candidates = pre ++ url :: post
          /\ Forall (fun u => is_ok (_try_json u) = false) pre
          /\ _try_json url = Ok r)
      \/ (Forall (fun u => is_ok (_try_json u) = false) candidates
          /\ _try_html html_url = Ok r)).
Proof.
  destruct (_json_loop candidates None) as [r'|le] eqn:Hloop.
  - intros [= ->]. pose proof Hloop as Hl.
    apply json_loop_inl in Hl as (pre & url & post & Hc & Hpre & Hu).
    destruct r as [t u]. destruct (try_json_Ok url t u Hu) as (-> & Hrows & _).
    split; [exact Hrows|]. split.
    + rewrite Hc. cbn [snd]. apply elem_of_app. left. apply elem_of_app. right. left.
    + left. exists pre, url, post. split; [exact Hc|]. split; assumption.
  - apply json_loop_inr in Hloop as (Hall & _).
    unfold try_except. destruct (_try_html html_url) as [[t u]|e] eqn:Hh; [|discriminate].
    intros [= <-]. destruct (try_html_Ok html_url t u Hh) as (-> & Hrows).
    split; [exact Hrows|]. split.
    + cbn [snd]. apply elem_of_app. right. left.
    + right. split; [exact Hall | reflexivity].
Qed.

Lemma fetch_twt93u_eq (ds : pystr) :
  fetch_twt93u ds
  = match _json_loop (twt93u_candidates ds) None with
    | inl r => Ok r
    | inr last_err =>
      try_except (_try_html twt93u_html_url)
        (fun e => Raise (RuntimeError
                           (py "Failed to fetch TWT93U for " ++ ds ++ py ": "
                               ++ exn_str (last_err_or last_err e))))
    end.
Proof. unfold fetch_twt93u, twt93u_candidates, twt93u_html_url. reflexivity. Qed.

Lemma fetch_bfi84u_eq (ds : pystr) :
  fetch_bfi84u ds
  = match _json_loop (bfi84u_candidates ds) None with
    | inl r => Ok r
    | inr last_err =>
      try_except (_try_html bfi84u_html_url)
        (fun e => Raise (RuntimeError
                           (py "Failed to fetch BFI84U: " ++ exn_str (last_err_or last_err e))))
    end.
Proof. unfold fetch_bfi84u, bfi84u_candidates, bfi84u_html_url. reflexivity. Qed.

(** X8.  The lending-report fetcher returns the result of the first JSON
    candidate that is accepted, in the order of the candidate list, and the
    result of the HTML page only when every JSON candidate was turned down;
    the table it returns always has rows, and the URL it returns is the one
    that produced the table. *)
Theorem fetch_twt93u_first_accepted (yyyymmdd : pystr) (t : Table) (u : pystr) :
  fetch_twt93u yyyymmdd = Ok (t, u) ->
  rows t <> []
  /\ u ∈ twt93u_candidates yyyymmdd ++ [twt93u_html_url]
  /\ ((exists pre url post,
          twt93u_candidates yyyymmdd = pre ++ url :: post
          /\ Forall (fun u => is_ok (_try_json u) = false) pre
          /\ _try_json url = Ok (t, u))
      \/ (Forall (fun u => is_ok (_try_json u) = false) (twt93u_candidates yyyymmdd)
          /\ _try_html twt93u_html_url = Ok (t, u))).
Proof.
  intros H. rewrite fetch_twt93u_eq in H.
  exact (fetch_shape (twt93u_candidates yyyymmdd) twt93u_html_url
                     (fun x => py "Failed to fetch TWT93U for " ++ yyyymmdd ++ py ": "
                                  ++ exn_str x) (t, u) H).
Qed.

(** X9.  The margin-report fetcher behaves the same over its four JSON
    candidates and its HTML page. *)
Theorem fetch_bfi84u_first_accepted (base_date_yyyymmdd : pystr) (t : Table) (u : pystr) :
  fetch_bfi84u base_date_yyyymmdd = Ok (t, u) ->
  rows t <> []
  /\ u ∈ bfi84u_candidates base_date_yyyymmdd ++ [bfi84u_html_url]
  /\ ((exists pre url post,
          bfi84u_candidates base_date_yyyymmdd = pre ++ url :: post
          /\ Forall (fun u => is_ok (_try_json u) = false) pre
          /\ _try_json url = Ok (t, u))
      \/ (Forall (fun u => is_ok (_try_json u) = false) (bfi84u_candidates base_date_yyyymmdd)
          /\ _try_html bfi84u_html_url = Ok (t, u))).
Proof.
  intros H. rewrite fetch_bfi84u_eq in H.
  exact (fetch_shape (bfi84u_candidates base_date_yyyymmdd) bfi84u_html_url
                     (fun x => py "Failed to fetch BFI84U: " ++ exn_str x) (t, u) H).
Qed.

(** X10.  The fetchers raise nothing but [RuntimeError], and only when
    every JSON candidate and the HTML page were turned down. *)
Theorem fetch_raises_only_runtime_error (ds : pystr) (e : exn) :
  (fetch_twt93u ds = Raise e ->
   (exists msg, e = RuntimeError msg)
   /\ Forall (fun u => is_ok (_try_json u) = false) (twt93u_candidates ds)
   /\ is_ok (_try_html twt93u_html_url) = false)
  /\ (fetch_bfi84u ds = Raise e ->
      (exists msg, e = RuntimeError msg)
      /\ Forall (fun u => is_ok (_try_json u) = false) (bfi84u_candidates ds)
      /\ is_ok (_try_html bfi84u_html_url) = false).
Proof.
  split.
  - rewrite fetch_twt93u_eq.
    destruct (_json_loop (twt93u_candidates ds) None) as [r|le] eqn:Hloop; [discriminate|].
    apply json_loop_inr in Hloop as (Hall & _).
    unfold try_except. destruct (_try_html twt93u_html_url) as [r|e']; [discriminate|].
    intros [= <-]. split; [eexists; reflexivity|]. split; [exact Hall | reflexivity].
  - rewrite fetch_bfi84u_eq.
    destruct (_json_loop (bfi84u_candidates ds) None) as [r|le] eqn:Hloop; [discriminate|].
    apply json_loop_inr in Hloop as (Hall & _).
    unfold try_except. destruct (_try_html bfi84u_html_url) as [r|e']; [discriminate|].
    intros [= <-]. split; [eexists; reflexivity|]. split; [exact Hall | reflexivity].
Qed.

(** *** Trading-calendar resolver *)

Lemma date_sub_day_Ok (cursor cursor' : date) :
  date_sub_day cursor = Ok cursor' -> cursor' = cursor - 1.
Proof.
  unfold date_sub_day. destruct (1 <? cursor); [|discriminate]. intros [= <-]. reflexivity.
Qed.

Lemma date_sub_day_Raise (cursor : date) (e : exn) :
  date_sub_day cursor = Raise e -> e = OverflowError (py "date value out of range").
Proof.
  unfold date_sub_day. destruct (1 <? cursor); [discriminate|]. intros [= <-]. reflexivity.
Qed.

Lemma cache_ok_insert (tables : gmap pystr (Table * pystr)) (trading : list date)
      (cursor : date) (tv : Table * pystr) :
  cache_ok tables trading ->
  fetch_twt93u (_yyyymmdd cursor) = Ok tv ->
  cache_ok (<[_yyyymmdd cursor := tv]> tables) (trading ++ [cursor]).
Proof.
  intros Hc Hf k v. destruct (decide (k = _yyyymmdd cursor)) as [->|Hne].
  - rewrite lookup_insert_eq. split.
    + intros [= <-]. exists cursor. split; [|split; [reflexivity | exact Hf]].
      apply elem_of_app. right. left.
    + intros (d & _ & _ & Hv). congruence.
  - rewrite lookup_insert_ne by congruence. rewrite (Hc k v). split.
    + intros (d & Hd & Hk & Hv). exists d. split; [|split; assumption].
      apply elem_of_app. left. exact Hd.
    + intros (d & Hd & Hk & Hv). exists d. split; [|split; assumption].
      apply elem_of_app in Hd as [Hd|Hd]; [exact Hd|].
      apply list_elem_of_singleton in Hd. subst d. contradiction.
Qed.

Lemma lookback_inv (count : Z) (n : nat) :
  forall cursor trading tables probed,
    cache_ok tables trading ->
    Forall (fun d => is_trading_day d = true) trading ->
    match snd (_lookback count n cursor trading tables probed) with
    | Ok (trading', tables') =>
      cache_ok tables' trading'
      /\ Forall (fun d => is_trading_day d = true) trading'
      /\ exists extra, trading' = trading ++ extra
                       /\ extra `sublist_of` lookback_days cursor n
    | Raise e => e = OverflowError (py "date value out of range")
    end.
Proof.
  induction n as [|n IH]; intros cursor trading tables probed Hc Hall.
  - cbn [_lookback snd]. split; [exact Hc|]. split; [exact Hall|].
    exists []. rewrite app_nil_r. split; [reflexivity | constructor].
  - rewrite lookback_days_S. cbn [_lookback]. cbv zeta.
    destruct (fetch_twt93u (_yyyymmdd cursor)) as [[table url]|e] eqn:Hf.
    + assert (Hok : is_trading_day cursor = true).
      { unfold is_trading_day. rewrite Hf. reflexivity. }
      assert (Hc1 := cache_ok_insert tables trading cursor (table, url) Hc Hf).
      assert (Hall1 : Forall (fun d => is_trading_day d = true) (trading ++ [cursor])).
      { apply Forall_app. split; [exact Hall|]. constructor; [exact Hok|constructor]. }
      destruct (count <=? _).
      * cbn [snd]. split; [exact Hc1|]. split; [exact Hall1|].
        exists [cursor]. split; [reflexivity|].
        apply sublist_skip. apply sublist_nil_l.
      * destruct (date_sub_day cursor) as [cursor'|e] eqn:Hsub.
        -- apply date_sub_day_Ok in Hsub. subst cursor'.
           specialize (IH (cursor - 1) (trading ++ [cursor])
                          (<[_yyyymmdd cursor := (table, url)]> tables)
                          (probed ++ [cursor]) Hc1 Hall1).
           destruct (snd (_lookback _ _ _ _ _ _)) as [[trading' tables']|e]; [|exact IH].
           destruct IH as (H1 & H2 & extra & -> & Hsubl).
           split; [exact H1|]. split; [exact H2|].
           exists (cursor :: extra). rewrite <- app_assoc. split; [reflexivity|].
           apply sublist_skip. exact Hsubl.
        -- cbn [snd]. eapply date_sub_day_Raise. exact Hsub.
    + destruct (date_sub_day cursor) as [cursor'|e'] eqn:Hsub.
      * apply date_sub_day_Ok in Hsub. subst cursor'.
        specialize (IH (cursor - 1) trading tables (probed ++ [cursor]) Hc Hall).
        destruct (snd (_lookback _ _ _ _ _ _)) as [[trading' tables']|e']; [|exact IH].
        destruct IH as (H1 & H2 & extra & -> & Hsubl).
        split; [exact H1|]. split; [exact H2|].
        exists extra. split; [reflexivity|]. apply sublist_cons. exact Hsubl.
      * cbn [snd]. eapply date_sub_day_Raise. exact Hsub.
Qed.

Lemma compute_trading_dates_eq (base : date) (count max_lookback_days : Z) :
  compute_trading_dates base count max_lookback_days
  = '(trading, tables) ← snd (_lookback count (Z.to_nat max_lookback_days) base [] ∅ []);
    if Z.of_nat (length trading) <? count
    then Raise (RuntimeError (py "Only found " ++ str_int (Z.of_nat (length trading))
                                 ++ py " trading days within lookback window"))
    else Ok (trading, tables).
Proof.
  unfold compute_trading_dates, compute_trading_dates_probed.
  destruct (_lookback _ _ _ _ _ _) as [probed r]. reflexivity.
Qed.

Lemma cache_ok_empty : cache_ok ∅ [].
Proof.
  intros k v. rewrite lookup_empty. split; [discriminate|].
  intros (d & Hd & _). inversion Hd.
Qed.

Lemma compute_trading_dates_Ok_inv (base : date) (count max_lookback_days : Z)
    (trading : list date) (tables : gmap pystr (Table * pystr)) :
  compute_trading_dates base count max_lookback_days = Ok (trading, tables) ->
  cache_ok tables trading
  /\ Forall (fun d => is_trading_day d = true) trading
  /\ trading `sublist_of` lookback_days base (Z.to_nat max_lookback_days)
  /\ count <= Z.of_nat (length trading).
Proof.
  rewrite compute_trading_dates_eq.
  pose proof (lookback_inv count (Z.to_nat max_lookback_days) base [] ∅ []
                           cache_ok_empty (Forall_nil_2 _)) as Hinv.
  destruct (snd (_lookback _ _ _ _ _ _)) as [[trading' tables']|e];
    [|rewrite bind_Raise; discriminate].
  rewrite bind_Ok. destruct (_ <? count) eqn:Hlt; [discriminate|].
  intros [= <- <-]. destruct Hinv as (Hc & Hall & extra & -> & Hsub).
  split; [exact Hc|]. split; [exact Hall|]. split; [exact Hsub|].
  apply Z.ltb_ge in Hlt. exact Hlt.
Qed.

(** X11.  When the resolver returns, the cache it hands over holds exactly
    the fetched table of every returned trading date, keyed by the date's
    text; the trading dates are days of the lookback window, in the order
    of the walk, on each of which the fetch succeeded, and there are at least
    [count] of them. *)
Theorem compute_trading_dates_cache (base : date) (count max_lookback_days : Z)
    (trading : list date) (tables : gmap pystr (Table * pystr)) :
  compute_trading_dates base count max_lookback_days = Ok (trading, tables) ->
  (forall k v,
      tables !! k = Some v <->
      exists d, d ∈ trading /\ k = _yyyymmdd d /\ fetch_twt93u k = Ok v)
  /\ Forall (fun d => is_trading_day d = true) trading
  /\ trading `sublist_of` lookback_days base (Z.to_nat max_lookback_days)
  /\ count <= Z.of_nat (length trading).
Proof. apply compute_trading_dates_Ok_inv. Qed.

(** X12.  The resolver swallows every failed probe: the only errors it
    raises are the [RuntimeError] of a short history, which names a number
    of found days below [count], and the [OverflowError] of a walk that
    reaches the first representable date. *)
Theorem compute_trading_dates_errors (base : date) (count max_lookback_days : Z) (e : exn) :
  compute_trading_dates base count max_lookback_days = Raise e ->
  (exists found,
      0 <= found < count
      /\ e = RuntimeError (py "Only found " ++ str_int found
                              ++ py " trading days within lookback window"))
  \/ e = OverflowError (py "date value out of range").
Proof.
  rewrite compute_trading_dates_eq.
  pose proof (lookback_inv count (Z.to_nat max_lookback_days) base [] ∅ []
                           cache_ok_empty (Forall_nil_2 _)) as Hinv.
  destruct (snd (_lookback _ _ _ _ _ _)) as [[trading' tables']|e'].
  - rewrite bind_Ok. destruct (_ <? count) eqn:Hlt; [|discriminate].
    intros [= <-]. left. exists (Z.of_nat (length trading')).
    apply Z.ltb_lt in Hlt. split; [lia | reflexivity].
  - rewrite bind_Raise. intros [= <-]. right. exact Hinv.
Qed.

(** X13.  With a window of no days the resolver makes no probe at all: it
    raises the short-history error, reporting 0 found days, when at least one
    date is asked for, and returns no date and an empty cache otherwise. *)
Theorem compute_trading_dates_empty_window (base : date) (count max_lookback_days : Z) :
  max_lookback_days <= 0 ->
  compute_trading_dates_probed base count max_lookback_days
  = ([],
     if 0 <? count
     then Raise (RuntimeError (py "Only found " ++ str_int 0
                                  ++ py " trading days within lookback window"))
     else Ok ([], ∅)).
Proof.
  intros Hw. unfold compute_trading_dates_probed.
  replace (Z.to_nat max_lookback_days) with 0%nat by lia.
  cbn [_lookback]. rewrite bind_Ok. reflexivity.
Qed.

(** *** Building the per-date maps *)

Lemma pick_index_Raise (fields : list pystr) (target : pystr) (score_fn : nat -> Z) (e : exn) :
  _pick_index fields target score_fn = Raise e ->
  e = ValueError (py "Missing column: " ++ target)
  /\ Forall (fun f => str_in target f = false) fields.
Proof.
  destruct (candidates_of fields target) as [|c cs] eqn:Hc.
  - rewrite pick_index_missing by exact Hc. intros [= <-].
    split; [reflexivity|]. apply candidates_of_nil. exact Hc.
  - destruct (pick_index_spec fields target score_fn) as (i & -> & _).
    + rewrite Hc. discriminate.
    + discriminate.
Qed.

Lemma twt93u_indices_Raise (fields : list pystr) (e : exn) :
  _twt93u_indices fields = Raise e ->
  exists target,
    e = ValueError (py "Missing column: " ++ target)
    /\ Forall (fun f => str_in target f = false) fields.
Proof.
  unfold _twt93u_indices.
  destruct (_pick_index fields (py "今日餘額") (score_short fields)) as [si|e1] eqn:H1.
  - rewrite bind_Ok.
    destruct (_pick_index fields (py "當日餘額") (score_borrow fields)) as [bi|e2] eqn:H2.
    + rewrite bind_Ok. discriminate.
    + rewrite bind_Raise. intros [= <-]. eexists. eapply pick_index_Raise. exact H2.
  - rewrite bind_Raise. intros [= <-]. eexists. eapply pick_index_Raise. exact H1.
Qed.

Lemma build_loop_Ok (tables_by_date : gmap pystr (Table * pystr)) (trading_dates : list date) :
  forall maps source_urls maps' source_urls',
    _build_loop trading_dates tables_by_date maps source_urls = Ok (maps', source_urls') ->
    (forall d, d ∈ trading_dates ->
               exists table url code_idx short_idx borrow_idx,
                 tables_by_date !! _yyyymmdd d = Some (table, url)
                 /\ _twt93u_indices (fields table) = Ok (code_idx, short_idx, borrow_idx)
                 /\ maps' !! _yyyymmdd d
                    = Some (_date_map code_idx short_idx borrow_idx (rows table))
                 /\ source_urls' !! _yyyymmdd d = Some url)
    /\ (forall k, (forall d, d ∈ trading_dates -> k <> _yyyymmdd d) ->
                  maps' !! k = maps !! k /\ source_urls' !! k = source_urls !! k).
Proof.
  induction trading_dates as [|d rest IH]; intros maps source_urls maps' source_urls'.
  - cbn [_build_loop]. intros [= <- <-]. split.
    + intros d Hd. inversion Hd.
    + intros k _. split; reflexivity.
  - cbn [_build_loop]. cbv zeta.
    destruct (tables_by_date !! _yyyymmdd d) as [[table url]|] eqn:Ht; [|discriminate].
    destruct (_twt93u_indices (fields table)) as [[[ci si] bi]|e] eqn:Hi;
      [|rewrite bind_Raise; discriminate].
    rewrite bind_Ok. intros Hrest. destruct (IH _ _ _ _ Hrest) as (HA & HB). split.
    + intros d' [->|Hd']%elem_of_cons; [|apply HA; exact Hd'].
      destruct (decide (_yyyymmdd d ∈ (_yyyymmdd <$> rest))) as [Hin|Hnin].
      * apply list_elem_of_fmap in Hin as (d2 & Heq & Hd2).
        destruct (HA d2 Hd2) as (t2 & u2 & c2 & s2 & b2 & H1 & H2 & H3 & H4).
        exists t2, u2, c2, s2, b2. rewrite Heq. repeat split; assumption.
      * destruct (HB (_yyyymmdd d)) as (Hm & Hu).
        { intros d2 Hd2 Heq. apply Hnin. apply list_elem_of_fmap. exists d2. split; assumption. }
        exists table, url, ci, si, bi. split; [exact Ht|]. split; [exact Hi|].
        rewrite Hm, Hu, !lookup_insert_eq. split; reflexivity.
    + intros k Hk. destruct (HB k) as (Hm & Hu).
      { intros d2 Hd2. apply Hk. right. exact Hd2. }
      rewrite Hm, Hu. rewrite !lookup_insert_ne; [split; reflexivity| |].
      * intros Heq. apply (Hk d); [left | symmetry; exact Heq].
      * intros Heq. apply (Hk d); [left | symmetry; exact Heq].
Qed.

Lemma build_loop_Raise (tables_by_date : gmap pystr (Table * pystr))
      (trading_dates : list date) (e : exn) :
  forall maps source_urls,
    _build_loop trading_dates tables_by_date maps source_urls = Raise e ->
    exists d,
      d ∈ trading_dates
      /\ ((tables_by_date !! _yyyymmdd d = None /\ e = KeyError (_yyyymmdd d))
          \/ (exists table url target,
                 tables_by_date !! _yyyymmdd d = Some (table, url)
                 /\ e = ValueError (py "Missing column: " ++ target)
                 /\ Forall (fun f => str_in target f = false) (fields table))).
Proof.
  induction trading_dates as [|d rest IH]; intros maps source_urls.
  - cbn [_build_loop]. discriminate.
  - cbn [_build_loop]. cbv zeta.
    destruct (tables_by_date !! _yyyymmdd d) as [[table url]|] eqn:Ht.
    + destruct (_twt93u_indices (fields table)) as [[[ci si] bi]|e'] eqn:Hi.
      * rewrite bind_Ok. intros Hrest. destruct (IH _ _ Hrest) as (d2 & Hd2 & Hcase).
        exists d2. split; [right; exact Hd2 | exact Hcase].
      * rewrite bind_Raise. intros [= <-]. exists d. split; [left|]. right.
        destruct (twt93u_indices_Raise _ _ Hi) as (target & He & Hall).
        exists table, url, target. split; [exact Ht|]. split; assumption.
    + intros [= <-]. exists d. split; [left|]. left. split; [exact Ht | reflexivity].
Qed.

(** X14.  When [build_twt93u_maps] returns, every trading date has its
    entry in both results: the date's map is the one built from the cached
    table with the resolved columns, and the source URL is the cached one;
    no other key is present. *)
Theorem build_twt93u_maps_entries (trading_dates : list date)
    (tables_by_date : gmap pystr (Table * pystr))
    (maps : gmap pystr (gmap pystr (pystr * pystr))) (source_urls : gmap pystr pystr) :
  build_twt93u_maps trading_dates tables_by_date = Ok (maps, source_urls) ->
  (forall d, d ∈ trading_dates ->
             exists table url code_idx short_idx borrow_idx,
               tables_by_date !! _yyyymmdd d = Some (table, url)
               /\ _twt93u_indices (fields table) = Ok (code_idx, short_idx, borrow_idx)
               /\ maps !! _yyyymmdd d
                  = Some (_date_map code_idx short_idx borrow_idx (rows table))
               /\ source_urls !! _yyyymmdd d = Some url)
  /\ (forall k, (forall d, d ∈ trading_dates -> k <> _yyyymmdd d) ->
                maps !! k = None /\ source_urls !! k = None).
Proof.
  unfold build_twt93u_maps. intros H.
  destruct (build_loop_Ok _ _ _ _ _ _ H) as (HA & HB). split; [exact HA|].
  intros k Hk. destruct (HB k Hk) as (Hm & Hu). rewrite Hm, Hu, !lookup_empty.
  split; reflexivity.
Qed.

(** X15.  [build_twt93u_maps] fails at a trading date that either has no
    cached table, with [KeyError] on the date's text, or whose table lacks a
    balance column, with the [ValueError] of the column resolver. *)
Theorem build_twt93u_maps_errors (trading_dates : list date)
    (tables_by_date : gmap pystr (Table * pystr)) (e : exn) :
  build_twt93u_maps trading_dates tables_by_date = Raise e ->
  exists d,
    d ∈ trading_dates
    /\ ((tables_by_date !! _yyyymmdd d = None /\ e = KeyError (_yyyymmdd d))
        \/ (exists table url target,
               tables_by_date !! _yyyymmdd d = Some (table, url)
               /\ e = ValueError (py "Missing column: " ++ target)
               /\ Forall (fun f => str_in target f = false) (fields table))).
Proof. unfold build_twt93u_maps. apply build_loop_Raise. Qed.

(** X16.  Fed with what the resolver returned, [build_twt93u_maps] never
    raises [KeyError]: every trading date is in the cache, so the only
    possible failure is a table without one of the balance columns. *)
Theorem build_after_compute_has_every_table (base : date) (count max_lookback_days : Z)
    (trading : list date) (tables : gmap pystr (Table * pystr)) (e : exn) :
  compute_trading_dates base count max_lookback_days = Ok (trading, tables) ->
  build_twt93u_maps trading tables = Raise e ->
  exists target, e = ValueError (py "Missing column: " ++ target).
Proof.
  intros Hc Hb. apply compute_trading_dates_Ok_inv in Hc as (Hcache & Hall & _).
  apply build_loop_Raise in Hb as (d & Hd & [(Hnone & _) | (t & u & target & _ & He & _)]).
  - exfalso. rewrite Forall_forall in Hall. specialize (Hall d Hd).
    unfold is_trading_day in Hall.
    destruct (fetch_twt93u (_yyyymmdd d)) as [v|e'] eqn:Hf; [|discriminate].
    assert (Hsome : tables !! _yyyymmdd d = Some v).
    { apply Hcache. exists d. split; [exact Hd|]. split; [reflexivity | exact Hf]. }
    congruence.
  - exists target. exact He.
Qed.

(** *** Merger *)

Lemma date_map_Some (code_idx short_idx borrow_idx : nat) (table_rows : list (list pystr))
      (code : pystr) (p : pystr * pystr) :
  _date_map code_idx short_idx borrow_idx table_rows !! code = Some p ->
  code <> []
  /\ exists row c,
      row ∈ table_rows /\ row !! code_idx = Some c /\ strip c = code
      /\ p = (stripped_cell row short_idx, stripped_cell row borrow_idx).
Proof.
  unfold _date_map. rewrite date_map_fold.
  destruct code as [|x code']; [rewrite lookup_empty; discriminate|].
  destruct (last _) as [row|] eqn:Hl; [|rewrite lookup_empty; discriminate].
  intros [= <-]. split; [discriminate|].
  apply last_Some_elem_of in Hl. apply list_elem_of_filter in Hl as (Hhas & Hin).
  unfold has_code in Hhas. destruct (row !! code_idx) as [c|] eqn:Hc; [|discriminate].
  apply bool_decide_eq_true in Hhas.
  exists row, c. split; [exact Hin|]. split; [exact Hc|]. split; [exact Hhas|reflexivity].
Qed.

Lemma stripped_cell_trimmed (row : list pystr) (i : nat) : trimmed (stripped_cell row i).
Proof.
  unfold stripped_cell. destruct (row !! i); [apply strip_trimmed|].
  split; intros c H; discriminate.
Qed.

(** X17.  Every key of a date's map is a non-empty code in stripped form
    (stripping it again changes nothing), and both stored balances are
    stripped texts. *)
Theorem date_map_entries_trimmed (code_idx short_idx borrow_idx : nat)
    (table_rows : list (list pystr)) (code short_val borrow_val : pystr) :
  _date_map code_idx short_idx borrow_idx table_rows !! code = Some (short_val, borrow_val) ->
  code <> [] /\ strip code = code /\ trimmed code
  /\ trimmed short_val /\ trimmed borrow_val.
Proof.
  intros H. apply date_map_Some in H as (Hne & row & c & _ & _ & <- & [= -> ->]).
  split; [exact Hne|]. split; [apply strip_idempotent|]. split; [apply strip_trimmed|].
  split; apply stripped_cell_trimmed.
Qed.

(** X18.  The join is made on stripped codes.  For a date whose map was
    built from a lending table, a base row is given the balances of the last
    lending row whose stripped code cell equals the base row's stripped code
    cell (each balance replaced by the placeholder when empty); it is given
    two placeholders when its code cell is empty or out of range, or when no
    lending row carries its code. *)
Theorem merge_joins_on_stripped_codes (base_code_idx : nat) (trading_dates : list date)
    (twt_maps : gmap pystr (gmap pystr (pystr * pystr))) (bfi_rows : list (list pystr))
    (i k : nat) (row : list pystr) (d : date)
    (code_idx short_idx borrow_idx : nat) (lending_rows : list (list pystr)) :
  bfi_rows !! i = Some row ->
  trading_dates !! k = Some d ->
  twt_maps !! _yyyymmdd d = Some (_date_map code_idx short_idx borrow_idx lending_rows) ->
  let code := stripped_cell row base_code_idx in
  let matching := filter (fun lrow => has_code code_idx code lrow = true) lending_rows in
  exists merged_row,
    combined_rows base_code_idx trading_dates twt_maps bfi_rows !! i = Some merged_row
    /\ (code = [] \/ matching = [] ->
        merged_row !! (length row + 2 * k)%nat = Some sentinel
        /\ merged_row !! (length row + 2 * k + 1)%nat = Some sentinel)
    /\ (forall lrow,
           code <> [] -> last matching = Some lrow ->
           merged_row !! (length row + 2 * k)%nat
           = Some (or_sentinel (stripped_cell lrow short_idx))
           /\ merged_row !! (length row + 2 * k + 1)%nat
              = Some (or_sentinel (stripped_cell lrow borrow_idx))).
Proof.
  intros Hrow Hk Hmap code matching.
  destruct (combined_rows_rows base_code_idx trading_dates twt_maps bfi_rows i row Hrow)
    as (extras & Hm & Hlen & Hcells).
  destruct (Hcells k d Hk) as (Hs & Hb). fold code in Hs, Hb.
  unfold balance_entry in Hs, Hb. rewrite Hmap in Hs, Hb. cbn [default from_option id] in Hs, Hb.
  unfold _date_map in Hs, Hb. rewrite date_map_fold in Hs, Hb. fold matching in Hs, Hb.
  exists (row ++ extras). split; [exact Hm|].
  rewrite <- Nat.add_assoc. rewrite !lookup_app_r by lia.
  replace (length row + 2 * k - length row)%nat with (2 * k)%nat by lia.
  replace (length row + (2 * k + 1) - length row)%nat with (2 * k + 1)%nat by lia.
  rewrite Hs, Hb. split.
  - intros [Hcode | Hnone].
    + rewrite Hcode. rewrite lookup_empty. split; reflexivity.
    + rewrite Hnone. cbn [last]. destruct code; rewrite lookup_empty; split; reflexivity.
  - intros lrow Hne Hlast. rewrite Hlast.
    destruct code; [contradiction|]. split; reflexivity.
Qed.

Lemma str_int_inj (a b : Z) : str_int a = str_int b -> a = b.
Proof.
  unfold str_int. intros H.
  assert (Hback : forall l, map ascii_of_N (map N_of_ascii l) = l).
  { induction l as [|c l IH]; [reflexivity|].
    cbn [map]. rewrite ascii_N_embedding, IH. reflexivity. }
  apply (f_equal (map ascii_of_N)) in H. rewrite !Hback in H.
  apply (f_equal string_of_list_ascii) in H.
  rewrite !string_of_list_ascii_of_string in H.
  apply (f_equal NilEmpty.int_of_string) in H.
  rewrite !NilEmpty.isi in H. injection H as H.
  apply DecimalZ.to_int_inj. exact H.
Qed.

Lemma labels_of_lookup (n k : nat) :
  (k < n)%nat ->
  labels_of n !! k
  = Some (match k with
          | O => py "D0"
          | _ => py "D" ++ str_int (- Z.of_nat k)
          end).
Proof.
  intros Hk. unfold labels_of. change (map ?f ?l) with (f <$> l).
  rewrite list_lookup_fmap, lookup_seq_lt by exact Hk. reflexivity.
Qed.

Lemma str_int_neg_head (k : nat) :
  (0 < k)%nat -> exists r, str_int (- Z.of_nat k) = 0x2D%N :: r.
Proof.
  intros Hk. unfold str_int.
  destruct (- Z.of_nat k) as [|p|p] eqn:Hz; try lia.
  cbn. eexists. reflexivity.
Qed.

Lemma labels_of_NoDup (n : nat) : NoDup (labels_of n).
Proof.
  apply NoDup_alt. intros i j x Hi Hj.
  assert (Hin : (i < n)%nat).
  { apply lookup_lt_Some in Hi. unfold labels_of in Hi. rewrite length_map, length_seq in Hi.
    exact Hi. }
  assert (Hjn : (j < n)%nat).
  { apply lookup_lt_Some in Hj. unfold labels_of in Hj. rewrite length_map, length_seq in Hj.
    exact Hj. }
  rewrite labels_of_lookup in Hi, Hj by assumption.
  rewrite <- Hj in Hi. clear Hj. apply (inj Some) in Hi.
  destruct i as [|i], j as [|j]; [reflexivity| | |].
  - exfalso. destruct (str_int_neg_head (S j)) as (r & Hr); [lia|].
    rewrite Hr in Hi. vm_compute in Hi. discriminate.
  - exfalso. destruct (str_int_neg_head (S i)) as (r & Hr); [lia|].
    rewrite Hr in Hi. vm_compute in Hi. discriminate.
  - apply app_inv_head in Hi. apply str_int_inj in Hi. lia.
Qed.

Lemma appended_fields_cons (x : pystr) (l : list pystr) :
  appended_fields (x :: l)
  = (py "融券_今日餘額_" ++ x) :: (py "借券_當日餘額_" ++ x) :: appended_fields l.
Proof. reflexivity. Qed.

Lemma elem_of_appended_fields (x : pystr) (l : list pystr) :
  x ∈ appended_fields l ->
  exists y, y ∈ l /\ (x = py "融券_今日餘額_" ++ y \/ x = py "借券_當日餘額_" ++ y).
Proof.
  induction l as [|y l IH]; intros Hx; [inversion Hx|].
  rewrite appended_fields_cons in Hx.
  apply elem_of_cons in Hx as [->|Hx]; [exists y; split; [left | left; reflexivity]|].
  apply elem_of_cons in Hx as [->|Hx]; [exists y; split; [left | right; reflexivity]|].
  destruct (IH Hx) as (z & Hz & Hcase). exists z. split; [right; exact Hz | exact Hcase].
Qed.

Lemma appended_prefixes_differ (a b : pystr) :
  py "融券_今日餘額_" ++ a <> py "借券_當日餘額_" ++ b.
Proof. intros H. apply (f_equal head) in H. vm_compute in H. discriminate. Qed.

Lemma appended_fields_NoDup (l : list pystr) : NoDup l -> NoDup (appended_fields l).
Proof.
  induction 1 as [|y l Hy Hnd IH]; [constructor|].
  rewrite appended_fields_cons. constructor; [|constructor; [|exact IH]].
  - intros Hin. apply elem_of_cons in Hin as [Heq|Hin].
    + exact (appended_prefixes_differ _ _ Heq).
    + apply elem_of_appended_fields in Hin as (z & Hz & [Heq|Heq]).
      * apply app_inv_head in Heq. subst z. contradiction.
      * exact (appended_prefixes_differ _ _ Heq).
  - intros Hin. apply elem_of_appended_fields in Hin as (z & Hz & [Heq|Heq]).
    + symmetry in Heq. exact (appended_prefixes_differ _ _ Heq).
    + apply app_inv_head in Heq. subst z. contradiction.
Qed.

Lemma appended_fields_length (l : list pystr) :
  length (appended_fields l) = (2 * length l)%nat.
Proof.
  induction l as [|x l IH]; [reflexivity|].
  rewrite appended_fields_cons. cbn [length]. rewrite IH. lia.
Qed.

Lemma appended_fields_lookup (l : list pystr) (k : nat) (x : pystr) :
  l !! k = Some x ->
  appended_fields l !! (2 * k)%nat = Some (py "融券_今日餘額_" ++ x)
  /\ appended_fields l !! (2 * k + 1)%nat = Some (py "借券_當日餘額_" ++ x).
Proof.
  revert k. induction l as [|y l IH]; intros k Hk; [discriminate|].
  rewrite appended_fields_cons. destruct k as [|k].
  - injection Hk as ->. split; reflexivity.
  - cbn [lookup list_lookup] in Hk. destruct (IH k Hk) as (H1 & H2).
    replace (2 * S k)%nat with (2 + 2 * k)%nat by lia.
    replace (2 + 2 * k + 1)%nat with (2 + (2 * k + 1))%nat by lia.
    split; [exact H1 | exact H2].
Qed.

(** X19.  The appended header has two names per label, "融券_今日餘額_" and
    "借券_當日餘額_" followed by the label, in label order; the labels are D0
    for the most recent date and D-k for the k-th date after it; and no two
    appended names are equal. *)
Theorem appended_fields_layout (n : nat) :
  length (appended_fields (labels_of n)) = (2 * n)%nat
  /\ (forall k,
         (k < n)%nat ->
         let label := match k with
                      | O => py "D0"
                      | _ => py "D" ++ str_int (- Z.of_nat k)
                      end in
         appended_fields (labels_of n) !! (2 * k)%nat = Some (py "融券_今日餘額_" ++ label)
         /\ appended_fields (labels_of n) !! (2 * k + 1)%nat
            = Some (py "借券_當日餘額_" ++ label))
  /\ NoDup (appended_fields (labels_of n)).
Proof.
  split; [|split].
  - rewrite appended_fields_length. unfold labels_of. rewrite length_map, length_seq.
    reflexivity.
  - intros k Hk label. apply appended_fields_lookup. subst label.
    apply labels_of_lookup. exact Hk.
  - apply appended_fields_NoDup, labels_of_NoDup.
Qed.

(** *** The whole run *)

Lemma lookback_len (count : Z) (n : nat) :
  forall cursor trading tables probed,
    Z.of_nat (length trading) < count ->
    match snd (_lookback count n cursor trading tables probed) with
    | Ok (trading', _) => Z.of_nat (length trading') <= count
    | Raise _ => True
    end.
Proof.
  induction n as [|n IH]; intros cursor trading tables probed Hlen.
  - cbn [_lookback snd]. lia.
  - cbn [_lookback]. cbv zeta.
    destruct (fetch_twt93u (_yyyymmdd cursor)) as [[table url]|e].
    + destruct (count <=? _) eqn:Hc.
      * cbn [snd]. rewrite length_app. simpl. lia.
      * apply Z.leb_gt in Hc.
        destruct (date_sub_day cursor) as [cursor'|e]; [|exact I].
        apply IH. exact Hc.
    + destruct (date_sub_day cursor) as [cursor'|e']; [|exact I].
      apply IH. exact Hlen.
Qed.

Lemma compute_trading_dates_length (base : date) (count max_lookback_days : Z)
    (trading : list date) (tables : gmap pystr (Table * pystr)) :
  1 <= count ->
  compute_trading_dates base count max_lookback_days = Ok (trading, tables) ->
  Z.of_nat (length trading) = count.
Proof.
  intros Hcount. rewrite compute_trading_dates_eq.
  pose proof (lookback_len count (Z.to_nat max_lookback_days) base [] ∅ []) as Hlen.
  destruct (snd (_lookback _ _ _ _ _ _)) as [[trading' tables']|e];
    [|rewrite bind_Raise; discriminate].
  rewrite bind_Ok. destruct (_ <? count) eqn:Hlt; [discriminate|].
  intros [= <- <-]. apply Z.ltb_ge in Hlt.
  assert (Z.of_nat (length trading') <= count) by (apply Hlen; simpl; lia). lia.
Qed.

(** X20.  When the run gets as far as the combined table, exactly five
    trading dates were resolved: the combined header is the margin table's
    header followed by ten appended names, the combined rows are the margin
    table's rows, in order and at least one, each followed by exactly ten
    appended cells. *)
Theorem main_combined_shape (base_date : date)
    (combined_fields : list pystr) (combined : list (list pystr)) :
  main base_date = Ok (combined_fields, combined) ->
  exists bfi_table bfi_url,
    fetch_bfi84u (_yyyymmdd base_date) = Ok (bfi_table, bfi_url)
    /\ take (length (fields bfi_table)) combined_fields = fields bfi_table
    /\ length combined_fields = (length (fields bfi_table) + 10)%nat
    /\ combined <> []
    /\ Forall2 (fun row out => take (length row) out = row
                               /\ length out = (length row + 10)%nat)
               (rows bfi_table) combined.
Proof.
  unfold main.
  destruct (compute_trading_dates base_date 5 45) as [[trading tables]|e] eqn:Hc;
    [|rewrite bind_Raise; discriminate].
  rewrite bind_Ok.
  destruct (build_twt93u_maps trading tables) as [[twt_maps twt_urls]|e];
    [|rewrite bind_Raise; discriminate].
  rewrite bind_Ok.
  destruct (fetch_bfi84u (_yyyymmdd base_date)) as [[bfi_table bfi_url]|e] eqn:Hf;
    [|rewrite bind_Raise; discriminate].
  rewrite bind_Ok. intros [= <- <-].
  assert (Hlen : length trading = 5%nat).
  { apply compute_trading_dates_length in Hc; lia. }
  exists bfi_table, bfi_url. split; [reflexivity|].
  split; [apply take_app_length|].
  split.
  { rewrite length_app, appended_fields_length. unfold labels_of.
    rewrite length_map, length_seq, Hlen. reflexivity. }
  rewrite fetch_bfi84u_eq in Hf.
  apply (fetch_shape _ _ (fun x => py "Failed to fetch BFI84U: " ++ exn_str x)) in Hf
    as (Hrows & _).
  cbn [fst] in Hrows.
  split.
  { unfold combined_rows. destruct (rows bfi_table); [contradiction|discriminate]. }
  unfold combined_rows. clear Hrows.
  induction (rows bfi_table) as [|row rs IH]; cbn [map]; constructor; [|exact IH].
  split; [apply take_app_length|].
  rewrite length_app, extras_of_length, Hlen. reflexivity.
Qed.

(** *** More on the column resolver, the fetchers and the walk *)

(** X21.  When exactly one header contains the target text, that header is
    the column returned, whatever the score function says. *)
Theorem pick_index_single_candidate (fields : list pystr) (target : pystr)
    (score_fn : nat -> Z) (i : nat) (f : pystr) :
  fields !! i = Some f ->
  str_in target f = true ->
  (forall j g, j <> i -> fields !! j = Some g -> str_in target g = false) ->
  _pick_index fields target score_fn = Ok i.
Proof.
  intros Hi Hf Honly.
  assert (Hc : i ∈ candidates_of fields target).
  { apply elem_of_candidates_of. exists f. split; assumption. }
  destruct (pick_index_spec fields target score_fn) as (i' & Hpick & Hi' & _).
  { intros Hnil. rewrite Hnil in Hc. inversion Hc. }
  rewrite Hpick. f_equal.
  apply elem_of_candidates_of in Hi' as (g & Hg & Hgin).
  destruct (decide (i' = i)) as [->|Hne]; [reflexivity|].
  rewrite (Honly i' g Hne Hg) in Hgin. discriminate.
Qed.

Lemma norm_cell_is_trimmed (v : json) : trimmed (norm_cell v).
Proof. split; intros c; apply norm_cell_trimmed. Qed.

Lemma parse_json_trimmed (payload : json) (t : Table) :
  _parse_twse_json_table payload = Ok t ->
  Forall trimmed (fields t) /\ Forall (Forall trimmed) (rows t).
Proof.
  intros H. apply parse_twse_json_table_Ok in H
    as (o & fl & dl & rs & _ & _ & _ & Hrs & ->).
  cbn [fields rows]. split.
  - apply Forall_forall. intros x Hx.
    apply list_elem_of_In, in_map_iff in Hx as (v & <- & _). apply strip_trimmed.
  - induction Hrs as [|row cells dl' rs' (cs & _ & ->) _ IH]; constructor; [|exact IH].
    apply Forall_forall. intros x Hx.
    apply list_elem_of_In, in_map_iff in Hx as (v & <- & _). apply norm_cell_is_trimmed.
Qed.

Lemma fetched_trimmed (candidates : list pystr) (html_url : pystr) (msg : exn -> pystr)
      (t : Table) (u : pystr) :
  match _json_loop candidates None with
  | inl r => Ok r
  | inr last_err =>
    try_except (_try_html html_url)
               (fun e => Raise (RuntimeError (msg (last_err_or last_err e))))
  end = Ok (t, u) ->
  Forall trimmed (fields t) /\ Forall (Forall trimmed) (rows t).
Proof.
  intros H. apply fetch_shape in H as (_ & _ & [(pre & url & post & _ & _ & Hj) | (_ & Hh)]).
  - apply try_json_Ok in Hj as (_ & _ & o & _ & Hp & _).
    eapply parse_json_trimmed. exact Hp.
  - unfold _try_html in Hh.
    destruct (_get_html html_url) as [html|e]; [|rewrite bind_Raise in Hh; discriminate].
    rewrite bind_Ok in Hh.
    destruct (_parse_html_first_table html) as [t'|e] eqn:Hp;
      [|rewrite bind_Raise in Hh; discriminate].
    rewrite bind_Ok in Hh. destruct (rows t') eqn:Hr; [discriminate|].
    injection Hh as <- _. apply parse_html_trimmed in Hp as (Hf & Hrows).
    split; [exact Hf|]. eapply Forall_impl; [exact Hrows|].
    intros row (_ & Hrow). exact Hrow.
Qed.

(** X22.  Whichever candidate served it, JSON or HTML, every header field
    and every cell of a table returned by a fetcher is a stripped text. *)
Theorem fetched_tables_are_trimmed (ds : pystr) (t : Table) (u : pystr) :
  fetch_twt93u ds = Ok (t, u) \/ fetch_bfi84u ds = Ok (t, u) ->
  Forall trimmed (fields t) /\ Forall (Forall trimmed) (rows t).
Proof.
  intros [H|H].
  - rewrite fetch_twt93u_eq in H.
    exact (fetched_trimmed _ _ (fun x => py "Failed to fetch TWT93U for " ++ ds ++ py ": "
                                            ++ exn_str x) t u H).
  - rewrite fetch_bfi84u_eq in H.
    exact (fetched_trimmed _ _ (fun x => py "Failed to fetch BFI84U: " ++ exn_str x) t u H).
Qed.

Lemma lookback_probed (count : Z) (n : nat) :
  forall cursor trading tables probed,
    exists m,
      fst (_lookback count n cursor trading tables probed)
      = probed ++ take m (lookback_days cursor n).
Proof.
  induction n as [|n IH]; intros cursor trading tables probed.
  - exists 0%nat. cbn [_lookback fst]. rewrite take_0, app_nil_r. reflexivity.
  - rewrite lookback_days_S. cbn [_lookback]. cbv zeta.
    assert (Hone : probed ++ [cursor]
                   = probed ++ take 1 (cursor :: lookback_days (cursor - 1) n)).
    { cbn [take firstn]. rewrite take_0. reflexivity. }
    assert (Hstep : forall trading' tables',
               exists m,
                 fst (match date_sub_day cursor with
                      | Ok cursor' =>
                        _lookback count n cursor' trading' tables' (probed ++ [cursor])
                      | Raise e => (probed ++ [cursor], Raise e)
                      end)
                 = probed ++ take m (cursor :: lookback_days (cursor - 1) n)).
    { intros trading' tables'.
      destruct (date_sub_day cursor) as [cursor'|e] eqn:Hsub.
      - apply date_sub_day_Ok in Hsub. subst cursor'.
        destruct (IH (cursor - 1) trading' tables' (probed ++ [cursor])) as (m & Hm).
        exists (S m). rewrite Hm, <- app_assoc. reflexivity.
      - exists 1%nat. exact Hone. }
    destruct (fetch_twt93u (_yyyymmdd cursor)) as [[table url]|e].
    + destruct (count <=? _).
      * exists 1%nat. exact Hone.
      * apply Hstep.
    + apply Hstep.
Qed.

(** X23.  Whatever happens to the probes, the dates handed to the fetcher
    are an initial stretch of the days [base], [base - 1], ...: at most
    [max_lookback_days] of them, none after the base date, none twice. *)
Theorem compute_trading_dates_probes_window (base : date) (count max_lookback_days : Z) :
  let probed := fst (compute_trading_dates_probed base count max_lookback_days) in
  probed `prefix_of` lookback_days base (Z.to_nat max_lookback_days)
  /\ (length probed <= Z.to_nat max_lookback_days)%nat
  /\ Forall (fun d => d <= base) probed
  /\ NoDup probed.
Proof.
  intros probed.
  assert (Hp : exists m, probed = take m (lookback_days base (Z.to_nat max_lookback_days))).
  { subst probed. unfold compute_trading_dates_probed.
    destruct (lookback_probed count (Z.to_nat max_lookback_days) base [] ∅ []) as (m & Hm).
    exists m. destruct (_lookback _ _ _ _ _ _) as [p r]. exact Hm. }
  destruct Hp as (m & ->).
  destruct (lookback_days_descending base (Z.to_nat max_lookback_days)) as (Hs & Hle).
  split; [apply prefix_take|].
  split.
  { rewrite length_take. unfold lookback_days. rewrite length_map, length_seq. lia. }
  split; [apply Forall_take; exact Hle|].
  assert (Hst : StronglySorted (fun a b => b < a)
                               (take m (lookback_days base (Z.to_nat max_lookback_days)))).
  { eapply StronglySorted_sublist; [apply sublist_take | exact Hs]. }
  induction Hst as [|x l Hl IH Hx]; constructor; [|exact IH].
  intros Hin. rewrite Forall_forall in Hx. specialize (Hx x Hin). lia.
Qed.

End Script.

(** ** The script on sample inputs *)

Example yyyymmdd_epoch : _yyyymmdd 719163 = py "19700101".
Proof. reflexivity. Qed.
Example yyyymmdd_leap :
  map _yyyymmdd [738945; 739924; 730485; 693655]
  = [py "20240229"; py "20261104"; py "20001231"; py "19000301"].
Proof. reflexivity. Qed.
Example labels_3 : labels_of 3 = [py "D0"; py "D-1"; py "D-2"].
Proof. reflexivity. Qed.

(** *** JSON table parser *)

(** C8, counterexample: a payload whose [fields] and [data] entries are both
    present and arrays is turned down, because the empty [fields] array is
    false and [fields1] is taken in its place. *)
Lemma parse_twse_json_table_empty_fields :
  json_get payload_empty_fields (py "fields") JNull = Ok (JArr [])
  /\ json_get payload_empty_fields (py "data") JNull = Ok (JArr [])
  /\ _parse_twse_json_table sample_repr payload_empty_fields
     = Raise (ValueError (py "Unexpected TWSE JSON shape")).
Proof. vm_compute. repeat split. Qed.

Lemma parse_twse_json_table_contract_witness :
  _parse_twse_json_table sample_repr payload_no_stat
  = Ok (mkTable [py "股票代號"; py "今日餘額"] [[py "2330"; []]; [py "2317"; py "12"]]).
Proof.
  apply (proj1 (parse_twse_json_table_contract sample_repr payload_no_stat)).
  eexists _, _, _, _. split; [reflexivity|].
  split; [vm_compute; reflexivity|]. split; [vm_compute; reflexivity|].
  split; [|vm_compute; reflexivity].
  repeat constructor; eexists; (split; [reflexivity | vm_compute; reflexivity]).
Defined.

(** *** Fallback fetcher *)

Lemma try_json_missing_stat_is_ok_witness :
  dict_lookup (py "stat")
              [(py "fields", JArr [JStr (py "股票代號 "); JStr (py "今日餘額")]);
               (py "data", JArr [JArr [JStr (py " 2330"); JNull];
                                 JArr [JStr (py "2317"); JInt 12]])] = None
  /\ _try_json sample_repr sample_upper no_stat_json (py "https://www.twse.com.tw/x")
     = Ok (mkTable [py "股票代號"; py "今日餘額"] [[py "2330"; []]; [py "2317"; py "12"]],
           py "https://www.twse.com.tw/x").
Proof.
  split; [vm_compute; reflexivity|].
  etransitivity.
  - apply (proj1 (try_json_missing_stat_is_ok sample_repr sample_upper no_stat_json
                    (py "https://www.twse.com.tw/x") _ eq_refl)).
    vm_compute. reflexivity.
  - vm_compute. reflexivity.
Defined.

(** C5, counterexample: with every JSON candidate and the HTML page failing,
    the error raised last is the one of the HTML attempt, yet the message of
    the [RuntimeError] carries the error of the last JSON candidate. *)
Lemma fetch_exhausted_hides_html_error :
  _try_html soup_empty net_down_text (py "https://www.twse.com.tw/zh/trading/margin/twt93u.html")
  = Raise (RequestException (py "html page unreachable"))
  /\ fetch_twt93u sample_repr sample_upper soup_empty net_down_json net_down_text (py "20261104")
     = Raise (RuntimeError (py "Failed to fetch TWT93U for 20261104: json endpoint unreachable"))
  /\ fetch_twt93u sample_repr sample_upper soup_empty net_down_json net_down_text (py "20261104")
     <> Raise (RuntimeError (py "Failed to fetch TWT93U for 20261104: html page unreachable"))
  /\ fetch_bfi84u sample_repr sample_upper soup_empty net_down_json net_down_text (py "20261104")
     = Raise (RuntimeError (py "Failed to fetch BFI84U: json endpoint unreachable")).
Proof. vm_compute. repeat split. discriminate. Qed.

Lemma fetch_exhausted_reports_last_json_error_witness :
  fetch_twt93u sample_repr sample_upper soup_header_only net_down_json
               (fun _ => Ok (py "<table>")) (py "20261104")
  = Raise (RuntimeError (py "Failed to fetch TWT93U for " ++ py "20261104" ++ py ": "
                            ++ exn_str (RequestException (py "json endpoint unreachable")))).
Proof.
  refine (proj1 (fetch_exhausted_reports_last_json_error
                   sample_repr sample_upper soup_header_only net_down_json
                   (fun _ => Ok (py "<table>")))
                (py "20261104")
                (RequestException (py "json endpoint unreachable"))
                (RequestException (py "json endpoint unreachable"))
                (ValueError (py "No rows")) _ _ _); vm_compute; reflexivity.
Defined.

(** *** HTML table parser *)

(** C4, counterexample: on a page whose table has a header and no data row
    the parser does not fail, it returns a table without rows. *)
Lemma parse_html_header_only_returns_empty_table :
  find "table" (soup_header_only (py "<table>")) = Some table_header_only
  /\ _tbody_rows table_header_only = []
  /\ _all_tr_rows table_header_only = []
  /\ _parse_html_first_table soup_header_only (py "<table>")
     = Ok (mkTable [py "股票代號"; py "今日餘額"] [])
  /\ is_ok (_parse_html_first_table soup_header_only (py "<table>")) = true.
Proof. vm_compute. repeat split. Qed.

Lemma parse_html_first_table_outcome_witness :
  _try_html soup_header_only (fun _ => Ok (py "<table>")) (py "https://www.twse.com.tw/x")
  = Raise (ValueError (py "No rows")).
Proof.
  apply (proj2 (proj2 (proj2 (proj2
           (parse_html_first_table_outcome soup_header_only (fun _ => Ok (py "<table>"))
                                           (py "<table>"))))))
    with (t := mkTable [py "股票代號"; py "今日餘額"] []); vm_compute; reflexivity.
Defined.

(** *** Column resolver *)

(** C3, counterexample: two candidates with the same score; the resolver
    returns the second one, for the short-sale and for the lending column. *)
Lemma twt93u_indices_tie_returns_last :
  candidates_of tied_header (py "今日餘額") = [1; 2]%nat
  /\ score_short tied_header 1 = score_short tied_header 2
  /\ candidates_of tied_header (py "當日餘額") = [3; 4]%nat
  /\ score_borrow tied_header 3 = score_borrow tied_header 4
  /\ _twt93u_indices tied_header = Ok (0, 2, 4)%nat
  /\ _twt93u_indices tied_header <> Ok (0, 1, 3)%nat.
Proof. vm_compute. repeat split. discriminate. Qed.

Lemma twt93u_indices_ties_go_to_last_witness :
  exists short_idx borrow_idx,
    _twt93u_indices tied_header = Ok (_find_stock_code_col tied_header, short_idx, borrow_idx)
    /\ (forall j f, tied_header !! j = Some f -> str_in (py "今日餘額") f = true ->
                    (j <= short_idx)%nat)
    /\ (forall j f, tied_header !! j = Some f -> str_in (py "當日餘額") f = true ->
                    (j <= borrow_idx)%nat).
Proof.
  destruct (twt93u_indices_ties_go_to_last tied_header)
    as (si & bi & Hidx & _ & Hs & _ & Hb).
  - vm_compute. discriminate.
  - vm_compute. discriminate.
  - exists si, bi. split; [exact Hidx|].
    assert (Hsi : si = 2%nat /\ bi = 4%nat).
    { vm_compute in Hidx. injection Hidx as <- <-. split; reflexivity. }
    destruct Hsi as [-> ->].
    split; intros j f Hj Hf.
    + destruct (Hs j f Hj Hf) as [H | [_ H]]; [|exact H].
      apply lookup_lt_Some in Hj. vm_compute in Hj.
      assert (Hle : (j <= 4)%nat) by lia.
      destruct j as [|[|[|[|[|j]]]]]; vm_compute in Hf; try discriminate; lia.
    + destruct (Hb j f Hj Hf) as [H | [_ H]]; [|exact H].
      apply lookup_lt_Some in Hj. vm_compute in Hj. lia.
Defined.

(** C2, counterexample: in the header row of the example, "今日餘額A" comes
    right after "現券" and is the column returned; "今日餘額B" is not. *)
Lemma short_balance_example_resolves_to_A :
  sample_header !! 2%nat = Some (py "今日餘額A")
  /\ sample_header !! 3%nat = Some (py "今日餘額B")
  /\ score_short sample_header 2 = 2
  /\ score_short sample_header 3 = 1
  /\ _pick_index sample_header (py "今日餘額") (score_short sample_header) = Ok 2%nat
  /\ _pick_index sample_header (py "今日餘額") (score_short sample_header) <> Ok 3%nat.
Proof. vm_compute. repeat split. discriminate. Qed.

Lemma short_balance_resolves_to_header_after_marker_witness :
  _pick_index sample_header (py "今日餘額") (score_short sample_header) = Ok 2%nat.
Proof.
  apply (short_balance_resolves_to_header_after_marker [py "股票代號"] [py "備註"]).
  intros f Hf. apply elem_of_cons in Hf as [->|Hf]; [vm_compute; reflexivity|].
  apply elem_of_cons in Hf as [->|Hf]; [vm_compute; reflexivity|].
  inversion Hf.
Defined.

(** *** Trading-calendar resolver *)

(** C6, counterexample.  With a target count of 0 nothing has to be
    collected, yet the resolver probes the base date and returns it; and
    from the first representable date a failed probe is followed by a date
    subtraction that raises [OverflowError], not the [RuntimeError] of a
    short history. *)
Lemma compute_trading_dates_count_zero_and_date_min :
  fst (compute_trading_dates_probed sample_repr sample_upper soup_empty
         always_open_json net_down_text 739924 0 45) = [739924]
  /\ (exists tables,
         compute_trading_dates sample_repr sample_upper soup_empty
           always_open_json net_down_text 739924 0 45 = Ok ([739924], tables))
  /\ compute_trading_dates sample_repr sample_upper soup_empty
       net_down_json net_down_text 1 1 1
     = Raise (OverflowError (py "date value out of range")).
Proof.
  split; [vm_compute; reflexivity|].
  split; [|vm_compute; reflexivity].
  eexists. vm_compute. reflexivity.
Qed.

Lemma compute_trading_dates_walk_witness :
  (1 <= 5 /\ 1 <= 739924 /\ 45 < 739924)
  /\ fst (compute_trading_dates_probed sample_repr sample_upper soup_empty
            (calendar_json week_open_days) net_down_text 739924 5 45)
     = [739924; 739923; 739922; 739921; 739920; 739919; 739918]
  /\ exists tables,
      compute_trading_dates sample_repr sample_upper soup_empty
        (calendar_json week_open_days) net_down_text 739924 5 45
      = Ok ([739924; 739923; 739922; 739919; 739918], tables).
Proof.
  split; [lia|].
  destruct (compute_trading_dates_walk sample_repr sample_upper soup_empty
              (calendar_json week_open_days) net_down_text 739924 5 45)
    as (_ & _ & Hfound & _); [lia | lia | lia |].
  destruct Hfound as ((tables & Hout) & _).
  { vm_compute. discriminate. }
  split; [vm_compute; reflexivity|].
  exists tables. rewrite Hout. f_equal.
Defined.

(** *** Merger *)

Lemma combined_rows_frame_witness :
  combined_rows 0 sample_dates sample_maps sample_bfi_rows
  = [[py "2330"; py "台積電"; py "—"; py "5"; py "7"; py "8"];
     [py "2317 "; py "鴻海"; py "—"; py "—"; py "1"; py "2"];
     [py "9999"; py "無"; py "—"; py "—"; py "—"; py "—"]]
  /\ length (combined_rows 0 sample_dates sample_maps sample_bfi_rows)
     = length sample_bfi_rows.
Proof.
  split; [vm_compute; reflexivity|].
  apply (proj1 (combined_rows_frame 0 sample_dates sample_maps sample_bfi_rows)).
Defined.

(** C1, counterexample: code 2330 is present in the map of the first date
    with the value ("", "5"); the appended short-balance cell is the em-dash
    placeholder, not the empty string of the source cell. *)
Lemma sentinel_appears_for_present_empty_value :
  balance_entry sample_maps 739924 (py "2330") = Some ([], py "5")
  /\ extras_of [739924] sample_maps (py "2330") = [sentinel; py "5"]
  /\ extras_of [739924] sample_maps (py "2330") <> [[]; py "5"]
  /\ combined_rows 0 [739924] sample_maps [[py "2330"]] = [[py "2330"; sentinel; py "5"]].
Proof. vm_compute. repeat split. discriminate. Qed.

Lemma sentinel_marks_absent_or_empty_witness :
  (sample_bfi_rows !! 0%nat = Some [py "2330"; py "台積電"]
   /\ sample_dates !! 0%nat = Some 739924)
  /\ exists merged_row,
      combined_rows 0 sample_dates sample_maps sample_bfi_rows !! 0%nat = Some merged_row
      /\ merged_row !! 2%nat = Some sentinel
      /\ merged_row !! 3%nat = Some (py "5").
Proof.
  split; [split; reflexivity|].
  destruct (sentinel_marks_absent_or_empty 0 sample_dates sample_maps sample_bfi_rows
              0 0 [py "2330"; py "台積電"] 739924 eq_refl eq_refl)
    as (merged_row & Hrow & Hpresent & _).
  exists merged_row. split; [exact Hrow|].
  apply (Hpresent [] (py "5")). vm_compute. reflexivity.
Defined.

Lemma date_map_last_row_wins_witness :
  _date_map 0 1 2 sample_twt_rows !! py "2330" = Some (py "3", [])
  /\ _date_map 0 1 2 sample_twt_rows !! py "2317" = Some (py "4", py "5")
  /\ _date_map 0 1 2 sample_twt_rows !! [] = None.
Proof.
  split; [|split].
  - rewrite (proj1 (proj2 (date_map_last_row_wins 0 1 2 sample_twt_rows)) (py "2330"))
      by (vm_compute; discriminate).
    vm_compute. reflexivity.
  - rewrite (proj1 (proj2 (date_map_last_row_wins 0 1 2 sample_twt_rows)) (py "2317"))
      by (vm_compute; discriminate).
    vm_compute. reflexivity.
  - apply (proj1 (date_map_last_row_wins 0 1 2 sample_twt_rows)).
Defined.

(** *** Further sample runs *)

Lemma parse_html_first_table_cells_trimmed_witness :
  _parse_html_first_table soup_two_header_rows (py "<table>")
  = Ok (mkTable [py "股票代號"; py "今日餘額"] [[py "2330"; []]])
  /\ Forall trimmed [py "股票代號"; py "今日餘額"].
Proof.
  assert (H : _parse_html_first_table soup_two_header_rows (py "<table>")
              = Ok (mkTable [py "股票代號"; py "今日餘額"] [[py "2330"; []]])).
  { vm_compute. reflexivity. }
  split; [exact H|].
  exact (proj1 (parse_html_first_table_cells_trimmed soup_two_header_rows _ _ H)).
Defined.

Lemma parse_html_first_table_last_header_row_witness :
  exists t,
    _parse_html_first_table soup_two_header_rows (py "<table>") = Ok t
    /\ fields t = [py "股票代號"; py "今日餘額"].
Proof.
  destruct (parse_html_first_table_last_header_row soup_two_header_rows (py "<table>")
              _ _ _ [_] eq_refl eq_refl eq_refl) as (t & Ht & Hf).
  exists t. split; [exact Ht|]. rewrite Hf. vm_compute. reflexivity.
Defined.

Lemma try_json_accepts_only_nonempty_tables_witness :
  _try_json sample_repr sample_upper second_endpoint_json
    (py "https://www.twse.com.tw/exchangeReport/TWT93U?response=json&date=20261104")
  = Ok (mkTable [py "股票代號"] [[py "2330"]],
        py "https://www.twse.com.tw/exchangeReport/TWT93U?response=json&date=20261104")
  /\ rows (mkTable [py "股票代號"] [[py "2330"]]) <> [].
Proof.
  assert (H : _try_json sample_repr sample_upper second_endpoint_json
                (py "https://www.twse.com.tw/exchangeReport/TWT93U?response=json&date=20261104")
              = Ok (mkTable [py "股票代號"] [[py "2330"]],
                    py "https://www.twse.com.tw/exchangeReport/TWT93U?response=json&date=20261104")).
  { vm_compute. reflexivity. }
  split; [exact H|].
  exact (proj1 (proj2 (try_json_accepts_only_nonempty_tables
                         sample_repr sample_upper second_endpoint_json _ _ _ H))).
Defined.

Lemma fetch_twt93u_first_accepted_witness :
  fetch_twt93u sample_repr sample_upper soup_empty second_endpoint_json net_down_text
    (py "20261104")
  = Ok (mkTable [py "股票代號"] [[py "2330"]],
        py "https://www.twse.com.tw/exchangeReport/TWT93U?response=json&date=20261104")
  /\ rows (mkTable [py "股票代號"] [[py "2330"]]) <> [].
Proof.
  assert (H : fetch_twt93u sample_repr sample_upper soup_empty second_endpoint_json
                net_down_text (py "20261104")
              = Ok (mkTable [py "股票代號"] [[py "2330"]],
                    py "https://www.twse.com.tw/exchangeReport/TWT93U?response=json&date=20261104")).
  { vm_compute. reflexivity. }
  split; [exact H|].
  exact (proj1 (fetch_twt93u_first_accepted
                  sample_repr sample_upper soup_empty second_endpoint_json net_down_text
                  _ _ _ H)).
Defined.

Lemma fetch_bfi84u_first_accepted_witness :
  exists t,
    fetch_bfi84u sample_repr sample_upper soup_empty always_open_json net_down_text
      (py "20261104")
    = Ok (t, py "https://www.twse.com.tw/rwd/zh/marginTrading/BFI84U?response=json")
    /\ rows t <> [].
Proof.
  eexists. 
  assert (H : fetch_bfi84u sample_repr sample_upper soup_empty always_open_json net_down_text
                (py "20261104")
              = Ok (mkTable (map py ["股票代號"; "現券"; "今日餘額"; "當日調整"; "當日餘額";
                                     "次一營業日"]%string)
                            [map py ["2330"; "0"; "1,200"; "0"; "3,400"; "9"]%string],
                    py "https://www.twse.com.tw/rwd/zh/marginTrading/BFI84U?response=json")).
  { vm_compute. reflexivity. }
  split; [exact H|].
  exact (proj1 (fetch_bfi84u_first_accepted
                  sample_repr sample_upper soup_empty always_open_json net_down_text
                  _ _ _ H)).
Defined.

Lemma compute_trading_dates_cache_witness :
  match compute_trading_dates sample_repr sample_upper soup_empty
          (calendar_json week_open_days) net_down_text 739924 5 45 with
  | Ok (trading, tables) =>
    trading = [739924; 739923; 739922; 739919; 739918]
    /\ forall k v,
        tables !! k = Some v <->
        exists d, d ∈ trading /\ k = _yyyymmdd d
                  /\ fetch_twt93u sample_repr sample_upper soup_empty
                        (calendar_json week_open_days) net_down_text k = Ok v
  | Raise _ => False
  end.
Proof.
  assert (Hrun : match compute_trading_dates sample_repr sample_upper soup_empty
                         (calendar_json week_open_days) net_down_text 739924 5 45 with
                 | Ok (trading, tables) => trading = [739924; 739923; 739922; 739919; 739918]
                 | Raise _ => False
                 end) by (vm_compute; reflexivity).
  destruct (compute_trading_dates sample_repr sample_upper soup_empty
              (calendar_json week_open_days) net_down_text 739924 5 45)
    as [[trading tables]|e] eqn:Hc; [|exact Hrun].
  split; [exact Hrun|].
  exact (proj1 (compute_trading_dates_cache sample_repr sample_upper soup_empty
                  (calendar_json week_open_days) net_down_text 739924 5 45 _ _ Hc)).
Defined.

Lemma compute_trading_dates_errors_witness :
  compute_trading_dates sample_repr sample_upper soup_empty net_down_json net_down_text
    739924 1 3
  = Raise (RuntimeError (py "Only found 0 trading days within lookback window"))
  /\ ((exists found,
          0 <= found < 1
          /\ RuntimeError (py "Only found 0 trading days within lookback window")
             = RuntimeError (py "Only found " ++ str_int found
                                ++ py " trading days within lookback window"))
      \/ RuntimeError (py "Only found 0 trading days within lookback window")
         = OverflowError (py "date value out of range")).
Proof.
  assert (H : compute_trading_dates sample_repr sample_upper soup_empty net_down_json
                net_down_text 739924 1 3
              = Raise (RuntimeError (py "Only found 0 trading days within lookback window"))).
  { vm_compute. reflexivity. }
  split; [exact H|].
  exact (compute_trading_dates_errors sample_repr sample_upper soup_empty net_down_json
           net_down_text 739924 1 3 _ H).
Defined.

Lemma compute_trading_dates_empty_window_witness :
  0 <= 0
  /\ compute_trading_dates_probed sample_repr sample_upper soup_empty always_open_json
       net_down_text 739924 5 0
     = ([], if 0 <? 5
            then Raise (RuntimeError (py "Only found " ++ str_int 0
                                         ++ py " trading days within lookback window"))
            else Ok ([], ∅)).
Proof.
  split; [lia|].
  refine (compute_trading_dates_empty_window sample_repr sample_upper soup_empty
            always_open_json net_down_text 739924 5 0 _). lia.
Defined.

Lemma build_twt93u_maps_entries_witness :
  match build_twt93u_maps [739924] sample_tables with
  | Ok (maps, source_urls) =>
    exists table url code_idx short_idx borrow_idx,
      sample_tables !! _yyyymmdd 739924 = Some (table, url)
      /\ _twt93u_indices (fields table) = Ok (code_idx, short_idx, borrow_idx)
      /\ maps !! _yyyymmdd 739924
         = Some (_date_map code_idx short_idx borrow_idx (rows table))
      /\ source_urls !! _yyyymmdd 739924 = Some url
  | Raise _ => False
  end.
Proof.
  destruct (build_twt93u_maps [739924] sample_tables) as [[maps source_urls]|e] eqn:Hb.
  - refine (proj1 (build_twt93u_maps_entries [739924] sample_tables _ _ Hb) 739924 _). left.
  - assert (Hrun : is_ok (build_twt93u_maps [739924] sample_tables) = true)
      by (vm_compute; reflexivity).
    rewrite Hb in Hrun. discriminate.
Defined.

Lemma build_twt93u_maps_errors_witness :
  build_twt93u_maps [739924] ∅ = Raise (KeyError (py "20261104"))
  /\ exists d,
      d ∈ [739924]
      /\ ((∅ : gmap pystr (Table * pystr)) !! _yyyymmdd d = None
          /\ KeyError (py "20261104") = KeyError (_yyyymmdd d)
          \/ exists table url target,
              (∅ : gmap pystr (Table * pystr)) !! _yyyymmdd d = Some (table, url)
              /\ KeyError (py "20261104") = ValueError (py "Missing column: " ++ target)
              /\ Forall (fun f => str_in target f = false) (fields table)).
Proof.
  assert (H : build_twt93u_maps [739924] ∅ = Raise (KeyError (py "20261104"))).
  { vm_compute. reflexivity. }
  split; [exact H|].
  exact (build_twt93u_maps_errors [739924] ∅ _ H).
Defined.

Lemma date_map_entries_trimmed_witness :
  _date_map 0 1 2 sample_twt_rows !! py "2330" = Some (py "3", [])
  /\ strip (py "2330") = py "2330".
Proof.
  assert (H : _date_map 0 1 2 sample_twt_rows !! py "2330" = Some (py "3", [])).
  { vm_compute. reflexivity. }
  split; [exact H|].
  exact (proj1 (proj2 (date_map_entries_trimmed 0 1 2 sample_twt_rows _ _ _ H))).
Defined.

Lemma merge_joins_on_stripped_codes_witness :
  exists merged_row,
    combined_rows 0 [739924] joined_maps sample_bfi_rows !! 1%nat = Some merged_row
    /\ merged_row !! 2%nat = Some (py "4")
    /\ merged_row !! 3%nat = Some (py "5").
Proof.
  destruct (merge_joins_on_stripped_codes 0 [739924] joined_maps sample_bfi_rows
              1 0 [py "2317 "; py "鴻海"] 739924 0 1 2 sample_twt_rows
              eq_refl eq_refl)
    as (merged_row & Hrow & _ & Hcells).
  - apply lookup_insert_eq.
  - exists merged_row. split; [exact Hrow|].
    apply (Hcells [py "2317"; py "4"; py "5"]).
    + vm_compute. discriminate.
    + vm_compute. reflexivity.
Defined.

Lemma main_combined_shape_witness :
  match main sample_repr sample_upper soup_empty always_open_json net_down_text 739924 with
  | Ok (combined_fields, combined) =>
    length combined_fields = 16%nat /\ combined <> []
  | Raise _ => False
  end.
Proof.
  destruct (main sample_repr sample_upper soup_empty always_open_json net_down_text 739924)
    as [[combined_fields combined]|e] eqn:H.
  - destruct (main_combined_shape sample_repr sample_upper soup_empty always_open_json
                net_down_text 739924 _ _ H) as (t & u & Hf & _ & Hlen & Hne & _).
    split; [|exact Hne]. rewrite Hlen.
    vm_compute in Hf. injection Hf as <- <-. reflexivity.
  - vm_compute in H. discriminate.
Defined.

Lemma build_after_compute_has_every_table_witness :
  match compute_trading_dates sample_repr sample_upper soup_empty short_only_json
          net_down_text 739924 1 1 with
  | Ok (trading, tables) =>
    match build_twt93u_maps trading tables with
    | Raise e => exists target, e = ValueError (py "Missing column: " ++ target)
    | Ok _ => False
    end
  | Raise _ => False
  end.
Proof.
  assert (Hrun : match compute_trading_dates sample_repr sample_upper soup_empty
                         short_only_json net_down_text 739924 1 1 with
                 | Ok (trading, tables) => is_ok (build_twt93u_maps trading tables) = false
                 | Raise _ => False
                 end) by (vm_compute; reflexivity).
  destruct (compute_trading_dates sample_repr sample_upper soup_empty short_only_json
              net_down_text 739924 1 1) as [[trading tables]|e] eqn:Hc; [|exact Hrun].
  destruct (build_twt93u_maps trading tables) as [p|e] eqn:Hb; [discriminate|].
  exact (build_after_compute_has_every_table sample_repr sample_upper soup_empty
           short_only_json net_down_text 739924 1 1 _ _ _ Hc Hb).
Defined.

Lemma pick_index_single_candidate_witness :
  _pick_index (fields sample_twt_table) (py "今日餘額") (fun _ => 0) = Ok 2%nat.
Proof.
  refine (pick_index_single_candidate (fields sample_twt_table) (py "今日餘額") (fun _ => 0)
            2 (py "今日餘額") _ _ _).
  - reflexivity.
  - vm_compute. reflexivity.
  - intros j g Hne Hj.
    destruct j as [|[|[|[|[|[|j]]]]]]; try (contradiction Hne; reflexivity);
      vm_compute in Hj; try discriminate; injection Hj as <-; vm_compute; reflexivity.
Defined.

Lemma fetched_tables_are_trimmed_witness :
  fetch_twt93u sample_repr sample_upper soup_empty second_endpoint_json net_down_text
    (py "20261104")
  = Ok (mkTable [py "股票代號"] [[py "2330"]],
        py "https://www.twse.com.tw/exchangeReport/TWT93U?response=json&date=20261104")
  /\ Forall trimmed [py "股票代號"].
Proof.
  assert (H : fetch_twt93u sample_repr sample_upper soup_empty second_endpoint_json
                net_down_text (py "20261104")
              = Ok (mkTable [py "股票代號"] [[py "2330"]],
                    py "https://www.twse.com.tw/exchangeReport/TWT93U?response=json&date=20261104")).
  { vm_compute. reflexivity. }
  split; [exact H|].
  exact (proj1 (fetched_tables_are_trimmed
                  sample_repr sample_upper soup_empty second_endpoint_json net_down_text
                  _ _ _ (or_introl H))).
Defined.

Lemma try_json_rejections_witness :
  _try_json sample_repr sample_upper array_payload_json (py "https://www.twse.com.tw/x")
  = Raise (AttributeError
             (py "'" ++ type_name (JArr []) ++ py "' object has no attribute 'get'"))
  /\ py "'" ++ type_name (JArr []) ++ py "' object has no attribute 'get'"
     = py "'list' object has no attribute 'get'"
  /\ fetch_twt93u sample_repr sample_upper soup_empty array_payload_json net_down_text
       (py "20261104")
     = Raise (RuntimeError (py "Failed to fetch TWT93U for 20261104: 'list' object has no attribute 'get'")).
Proof.
  split; [|split; vm_compute; reflexivity].
  refine (proj1 (proj2 (try_json_rejections sample_repr sample_upper array_payload_json
                          (py "https://www.twse.com.tw/x"))) (JArr []) eq_refl _).
  intros o. discriminate.
Defined.
